(** * The chat engine of the desktop UI (ui/desktop/src/hooks/useChatEngine.ts)

    A shallow embedding of the [useChatEngine] hook: the message data
    model, the pure helpers ([isUserMessage], [estimateTokens],
    [filteredMessages]) and the event handlers ([handleSubmit],
    [onStopGoose], [onFinish], [onError]).

    The handlers of the hook never read back what they have just
    written: each one inspects the values captured by its closure
    (the message list, the chat, the time of the last interaction) and
    then calls its collaborators in sequence.  A handler is therefore
    embedded as a function from the captured values to the list of
    collaborator calls it makes ([Effect]), and the calls are given a
    meaning on an explicit engine state by [run]. *)

From Stdlib Require Import ZArith QArith Qround Lia Bool Ascii String.
From stdpp Require Import base list gmap.

Open Scope Z_scope.

Set Warnings "-register-all".

(** ** JavaScript strings and arrays *)

(** A JavaScript string is a sequence of UTF-16 code units; [length]
    counts code units, as [String.prototype.length] does. *)
Definition code_unit := N.
Definition jsstring := list code_unit.

(** String literals of the source, which are all ASCII. *)
Definition lit (s : string) : jsstring :=
  List.map N_of_ascii (list_ascii_of_string s).

(** WhiteSpace and LineTerminator code points of ECMAScript, the
    characters [String.prototype.trim] strips. *)
Definition isWhiteSpace (c : code_unit) : bool :=
  ((9 <=? c) && (c <=? 13) || (c =? 32) || (c =? 160) || (c =? 5760)
   || (8192 <=? c) && (c <=? 8202) || (c =? 8232) || (c =? 8233)
   || (c =? 8239) || (c =? 8287) || (c =? 12288) || (c =? 65279))%N.

Fixpoint trimStart (s : jsstring) : jsstring :=
  match s with
  | c :: s' => if isWhiteSpace c then trimStart s' else s
  | [] => []
  end.

Definition trimEnd (s : jsstring) : jsstring := rev (trimStart (rev s)).

Definition trim (s : jsstring) : jsstring := trimEnd (trimStart s).

(** Truthiness of a string: every string but the empty one. *)
Definition truthy (s : jsstring) : bool :=
  match s with [] => false | _ :: _ => true end.

(** [a[i]] for an integer index: [undefined] out of range. *)
Definition index {A} (a : list A) (i : Z) : option A :=
  if i <? 0 then None else a !! Z.to_nat i.

(** [a.slice(start, end)], with the negative indices of JavaScript
    counted from the end. *)
Definition sliceIndex (len i : Z) : Z :=
  if i <? 0 then Z.max (len + i) 0 else Z.min i len.

Definition slice {A} (a : list A) (start stop : Z) : list A :=
  let len := Z.of_nat (length a) in
  let from := sliceIndex len start in
  let to := sliceIndex len stop in
  take (Z.to_nat (to - from)) (drop (Z.to_nat from) a).

(** [x || y] on numbers: [0] is falsy. *)
Definition orElse (x y : Z) : Z := if x =? 0 then y else x.

(** [x || 0] on an optional number ([undefined] and [null] are falsy). *)
Definition orZero (x : option Z) : Z :=
  match x with Some v => orElse v 0 | None => 0 end.

(** ** Messages (types/message) *)

Inductive Role := user | assistant.

Record ToolCall := { name : jsstring; arguments : jsstring }.

(** [ToolCallResult<T>]: [{status: 'success', value}] or
    [{status: 'error', error}]. *)
Inductive ToolCallResult (T : Type) :=
| success (value : T)
| error (message : jsstring).
Arguments success {T} value.
Arguments error {T} message.

(** The content blocks of a message.  [toolResult] of a response carries
    content of its own, kept here as text; [otherContent] stands for
    the remaining block kinds (images, context-length markers, ...),
    which the engine never looks into. *)
Inductive MessageContent :=
| text (t : jsstring)
| toolRequest (id : jsstring) (toolCall : ToolCallResult ToolCall)
| toolResponse (id : jsstring) (toolResult : ToolCallResult jsstring)
| toolConfirmationRequest (id : jsstring) (toolName : jsstring)
                          (args : jsstring)
| otherContent (payload : jsstring).

Record Message := {
  id : option jsstring;
  role : Role;
  created : Z;
  content : list MessageContent;
  display : option bool;
  sendToLLM : option bool
}.

Record ChatType := { chat_id : jsstring; chat_messages : list Message }.

Definition isText (c : MessageContent) : bool :=
  match c with text _ => true | _ => false end.
Definition isToolRequest (c : MessageContent) : bool :=
  match c with toolRequest _ _ => true | _ => false end.
Definition isToolResponse (c : MessageContent) : bool :=
  match c with toolResponse _ _ => true | _ => false end.
Definition isToolConfirmationRequest (c : MessageContent) : bool :=
  match c with toolConfirmationRequest _ _ _ => true | _ => false end.

(** ** isUserMessage *)

Definition isUserMessage (message : Message) : bool :=
  match role message with
  | assistant => false
  | user =>
      if forallb isToolConfirmationRequest (content message) then false
      else true
  end.

(** ** estimateTokens *)

(** [Math.ceil(text.length / 4)].  The quotient of an array length by 4
    is exact in a double, so the rational quotient is the value the
    code rounds up. *)
Definition estimateTokens (t : jsstring) : Z :=
  Qceiling (inject_Z (Z.of_nat (length t)) / inject_Z 4).

(** ** filteredMessages *)

(** [message.display ?? true] *)
Definition displayOrTrue (message : Message) : bool :=
  match display message with Some b => b | None => true end.

Definition filteredMessages (ancestorMessages messages : list Message)
  : list Message :=
  List.filter displayOrTrue (ancestorMessages ++ messages).

(** ** Collaborator calls *)

(** What a handler of the hook does: the calls it makes, in order, to
    the React state setters, the message stream ([useMessageStream]),
    the Electron bridge ([window.electron]), the window event bus, the
    local message storage and the callbacks passed as props.  The
    logging calls carry no payload apart from the number concatenated
    into the [logInfo] line. *)
Inductive Effect :=
| stop
| setLastInteractionTime (now : Z)
| startPowerSaveBlocker
| stopPowerSaveBlocker
| setInput (value : jsstring)
| setMessages (messages : list Message)
| originalAppend (message : Message)
| addMessage (t : jsstring)
| dispatchEvent (event : jsstring)
| showNotification (title body : jsstring)
| logInfo (lastInteraction : Z)
| consoleLog
| onMessageStreamFinish
| onMessageSent
| onSummaryReset
| setTimeout (callback : list Effect) (delay : Z)
| setSessionTokenCount (n : Z)
| setSessionInputTokens (n : Z)
| setSessionOutputTokens (n : Z)
| setLocalInputTokens (n : Z)
| setLocalOutputTokens (n : Z).

(** An optional callback prop, called as [callback?.()]. *)
Definition optionalCall (present : bool) (e : Effect) : list Effect :=
  if present then [e] else [].

(** ** The hook *)

Section useChatEngine.

(** [getTextContent] and [createUserMessage] are imported from
    types/message and taken as they come. *)
Variable getTextContent : Message -> jsstring.
Variable createUserMessage : jsstring -> Message.

(** The props of the hook: the chat, whether the two optional
    callbacks are given, and [enableLocalStorage]. *)
Variable chat : ChatType.
Variable hasOnMessageStreamFinish : bool.
Variable hasOnMessageSent : bool.
Variable enableLocalStorage : bool.

Definition storeMessageInHistory (message : Message) : list Effect :=
  if enableLocalStorage && isUserMessage message then
    let t := getTextContent message in
    if truthy t then [addMessage t] else []
  else [].

Definition isDigit (c : code_unit) : bool := ((48 <=? c) && (c <=? 57))%N.

(** [chat.id && chat.id.match(/^\d{8}_\d{6}$/)], as a truth value:
    eight digits, an underscore, six digits and nothing else. *)
Definition isNewSession : bool :=
  truthy (chat_id chat)
  && (length (chat_id chat) =? 15)%nat
  && forallb isDigit (take 8 (chat_id chat))
  && forallb (N.eqb 95) (take 1 (drop 8 (chat_id chat)))
  && forallb isDigit (drop 9 (chat_id chat)).

(** [onFinish], run by the message stream when a reply completes.
    [now] is [Date.now()], [lastInteractionTime] the state captured
    by the closure. *)
Definition onFinish (now lastInteractionTime : Z) : list Effect :=
  [stopPowerSaveBlocker; logInfo lastInteractionTime]
  ++ (if now - lastInteractionTime >? 60000
      then [showNotification (lit "Goose finished the task.")
                             (lit "Click here to expand.")]
      else [])
  ++ (if isNewSession
      then [consoleLog; dispatchEvent (lit "message-stream-finished")]
      else [])
  ++ optionalCall hasOnMessageStreamFinish onMessageStreamFinish.

(** [onError], run by the message stream when a reply fails. *)
Definition onError : list Effect := [consoleLog].

(** [append] takes a message or a string, which it wraps into a user
    message. *)
Definition append (messages : list Message)
    (messageOrString : Message + jsstring) : list Effect :=
  let message :=
    match messageOrString with
    | inr s => createUserMessage s
    | inl m => m
    end in
  storeMessageInHistory message
  ++ (if (length messages =? 0)%nat && (length (chat_messages chat) =? 0)%nat
      then [dispatchEvent (lit "session-created")]
      else [])
  ++ [originalAppend message].

(** [handleSubmit]; [withSummaryReset] tells whether the optional
    [onSummaryReset] argument is given. *)
Definition handleSubmit (now : Z) (messages : list Message)
    (combinedTextFromInput : jsstring) (withSummaryReset : bool)
  : list Effect :=
  if truthy (trim combinedTextFromInput) then
    let userMessage := createUserMessage (trim combinedTextFromInput) in
    [startPowerSaveBlocker; setLastInteractionTime now]
    ++ (if withSummaryReset then
          [onSummaryReset;
           setTimeout (append messages (inl userMessage)
                       ++ optionalCall hasOnMessageSent onMessageSent) 150]
        else
          append messages (inl userMessage)
          ++ optionalCall hasOnMessageSent onMessageSent)
  else [stopPowerSaveBlocker].

(** The [[id, toolCall]] pair made from a tool request or a
    confirmation request. *)
Definition toolRequestEntry (c : MessageContent)
  : option (jsstring * ToolCallResult ToolCall) :=
  match c with
  | toolRequest i toolCall => Some (i, toolCall)
  | toolConfirmationRequest i toolName args =>
      Some (i, success {| name := toolName; arguments := args |})
  | _ => None
  end.

Definition toolRequests (lastMessage : Message)
  : list (jsstring * ToolCallResult ToolCall) :=
  omap toolRequestEntry
    (List.filter (fun c => isToolRequest c || isToolConfirmationRequest c)
                 (content lastMessage)).

Definition notification : jsstring :=
  lit "Interrupted by the user to make a correction".

(** The response message after the [for] loop has pushed one
    [toolResponse] per interrupted request. *)
Definition responseMessage (now : Z)
    (requests : list (jsstring * ToolCallResult ToolCall)) : Message :=
  {| id := None;
     role := user;
     created := now;
     content := List.map (fun r => toolResponse (fst r) (error notification))
                         requests;
     display := Some true;
     sendToLLM := Some true |}.

(** [textContent?.text || ''] for the first [text] block. *)
Definition textValue (lastMessage : Message) : jsstring :=
  match List.find isText (content lastMessage) with
  | Some (text t) => if truthy t then t else []
  | _ => []
  end.

(** [onStopGoose]; [messages] is the list captured by the closure,
    [now] and [later] are the two readings of [Date.now()], the first
    for the interaction time, the second for the response message. *)
Definition onStopGoose (now later : Z) (messages : list Message)
  : list Effect :=
  [stop; setLastInteractionTime now; stopPowerSaveBlocker]
  ++ match index messages (Z.of_nat (length messages) - 1) with
     | None => []
     | Some lastMessage =>
         let isToolResponse := existsb isToolResponse (content lastMessage) in
         if isUserMessage lastMessage && negb isToolResponse then
           [setInput (textValue lastMessage);
            if (1 <? length messages)%nat
            then setMessages (slice messages 0 (-1))
            else setMessages []]
         else if negb (isUserMessage lastMessage) then
           let requests := toolRequests lastMessage in
           if negb (length requests =? 0)%nat then
             [setMessages (messages ++ [responseMessage later requests])]
           else []
         else []
     end.

(** The effect that recomputes the local estimates from [messages]. *)
Definition countTokens (messages : list Message) : Z * Z :=
  fold_left
    (fun (acc : Z * Z) message =>
       let '(inputTokens, outputTokens) := acc in
       let textContent := getTextContent message in
       if truthy textContent then
         let tokens := estimateTokens textContent in
         match role message with
         | user => (inputTokens + tokens, outputTokens)
         | assistant => (inputTokens, outputTokens + tokens)
         end
       else acc)
    messages (0, 0).

Definition updateLocalTokens (messages : list Message) : list Effect :=
  [setLocalInputTokens (fst (countTokens messages));
   setLocalOutputTokens (snd (countTokens messages))].

(** The token metadata of a stream completion event; a field may be
    missing or null. *)
Record SessionMetadata := {
  totalTokens : option Z;
  accumulatedInputTokens : option Z;
  accumulatedOutputTokens : option Z
}.

(** The effect run when [sessionMetadata] changes. *)
Definition updateSessionTokens (sessionMetadata : option SessionMetadata)
  : list Effect :=
  consoleLog
  :: match sessionMetadata with
     | Some metadata =>
         [setSessionTokenCount (orZero (totalTokens metadata));
          setSessionInputTokens (orZero (accumulatedInputTokens metadata));
          setSessionOutputTokens (orZero (accumulatedOutputTokens metadata))]
     | None => []
     end.

(** [sessionDetails.metadata], as far as the hook reads it. *)
Record SessionDetailsMetadata := {
  total_tokens : option Z;
  accumulated_input_tokens : option Z;
  accumulated_output_tokens : option Z
}.

(** [fetchSessionTokens], guarded by [if (chat.id)]; [fetched] is the
    outcome of [fetchSessionDetails], [None] when it throws. *)
Definition fetchSessionTokens (fetched : option SessionDetailsMetadata)
  : list Effect :=
  if truthy (chat_id chat) then
    match fetched with
    | Some metadata =>
        [setSessionTokenCount (orZero (total_tokens metadata));
         setSessionInputTokens (orZero (accumulated_input_tokens metadata));
         setSessionOutputTokens (orZero (accumulated_output_tokens metadata))]
    | None => [consoleLog]
    end
  else [].

End useChatEngine.

(** ** The engine state *)

(** Lifecycle of the stream session, as the message stream reports it. *)
Inductive ChatState := Idle | Streaming | WaitingForUserInput | Failed.

(** The React state of the hook ([messages] and [input] are held by
    [useMessageStream]) together with the state of its collaborators:
    the stream session, the keep-awake handle of the Electron main
    process, the window events dispatched so far, the local message
    storage and the timers waiting to fire. *)
Record Engine := {
  messages : list Message;
  ancestorMessages : list Message;
  input : jsstring;
  lastInteractionTime : Z;
  sessionTokenCount : Z;
  sessionInputTokens : Z;
  sessionOutputTokens : Z;
  localInputTokens : Z;
  localOutputTokens : Z;
  chatState : ChatState;
  powerSaveBlocker : bool;
  dispatched : list jsstring;
  stored : list jsstring;
  timers : list (list Effect * Z)
}.

Definition withMessages (v : list Message) (e : Engine) : Engine :=
  {| messages := v; ancestorMessages := ancestorMessages e; input := input e;
     lastInteractionTime := lastInteractionTime e;
     sessionTokenCount := sessionTokenCount e;
     sessionInputTokens := sessionInputTokens e;
     sessionOutputTokens := sessionOutputTokens e;
     localInputTokens := localInputTokens e;
     localOutputTokens := localOutputTokens e;
     chatState := chatState e; powerSaveBlocker := powerSaveBlocker e;
     dispatched := dispatched e; stored := stored e; timers := timers e |}.

Definition withInput (v : jsstring) (e : Engine) : Engine :=
  {| messages := messages e; ancestorMessages := ancestorMessages e; input := v;
     lastInteractionTime := lastInteractionTime e;
     sessionTokenCount := sessionTokenCount e;
     sessionInputTokens := sessionInputTokens e;
     sessionOutputTokens := sessionOutputTokens e;
     localInputTokens := localInputTokens e;
     localOutputTokens := localOutputTokens e;
     chatState := chatState e; powerSaveBlocker := powerSaveBlocker e;
     dispatched := dispatched e; stored := stored e; timers := timers e |}.

Definition withLastInteractionTime (v : Z) (e : Engine) : Engine :=
  {| messages := messages e; ancestorMessages := ancestorMessages e;
     input := input e; lastInteractionTime := v;
     sessionTokenCount := sessionTokenCount e;
     sessionInputTokens := sessionInputTokens e;
     sessionOutputTokens := sessionOutputTokens e;
     localInputTokens := localInputTokens e;
     localOutputTokens := localOutputTokens e;
     chatState := chatState e; powerSaveBlocker := powerSaveBlocker e;
     dispatched := dispatched e; stored := stored e; timers := timers e |}.

(** The five token counters, set together. *)
Definition withTokens (total sessionIn sessionOut localIn localOut : Z)
    (e : Engine) : Engine :=
  {| messages := messages e; ancestorMessages := ancestorMessages e;
     input := input e; lastInteractionTime := lastInteractionTime e;
     sessionTokenCount := total;
     sessionInputTokens := sessionIn;
     sessionOutputTokens := sessionOut;
     localInputTokens := localIn;
     localOutputTokens := localOut;
     chatState := chatState e; powerSaveBlocker := powerSaveBlocker e;
     dispatched := dispatched e; stored := stored e; timers := timers e |}.

(** The state of the collaborators, set together. *)
Definition withCollaborators (state : ChatState) (blocker : bool)
    (events history : list jsstring) (pending : list (list Effect * Z))
    (e : Engine) : Engine :=
  {| messages := messages e; ancestorMessages := ancestorMessages e;
     input := input e; lastInteractionTime := lastInteractionTime e;
     sessionTokenCount := sessionTokenCount e;
     sessionInputTokens := sessionInputTokens e;
     sessionOutputTokens := sessionOutputTokens e;
     localInputTokens := localInputTokens e;
     localOutputTokens := localOutputTokens e;
     chatState := state; powerSaveBlocker := blocker;
     dispatched := events; stored := history; timers := pending |}.

Definition withChatState (state : ChatState) (e : Engine) : Engine :=
  withCollaborators state (powerSaveBlocker e) (dispatched e) (stored e)
                    (timers e) e.

(** Modelled from the spec: [useMessageStream], the Electron bridge and
    the local message storage are not under src/; this is what a call
    to each of them does to the engine state.  The stream's append
    inserts the message at the tail and opens a stream session, its
    [setMessages] replaces the tail, its [stop] leaves the lifecycle
    [Idle]; the keep-awake handle is held from
    [startPowerSaveBlocker] to [stopPowerSaveBlocker]; a dispatched
    window event, a stored input and a pending timer are recorded in
    order.  Logging, the desktop notification and the callbacks given
    as props act outside the engine state.  The React setters store
    their argument. *)
Definition call (c : Effect) (e : Engine) : Engine :=
  match c with
  | stop =>
      withCollaborators Idle (powerSaveBlocker e) (dispatched e) (stored e)
                        (timers e) e
  | setLastInteractionTime now => withLastInteractionTime now e
  | startPowerSaveBlocker =>
      withCollaborators (chatState e) true (dispatched e) (stored e)
                        (timers e) e
  | stopPowerSaveBlocker =>
      withCollaborators (chatState e) false (dispatched e) (stored e)
                        (timers e) e
  | setInput value => withInput value e
  | setMessages l => withMessages l e
  | originalAppend message =>
      withCollaborators Streaming (powerSaveBlocker e) (dispatched e)
                        (stored e) (timers e)
                        (withMessages (messages e ++ [message]) e)
  | addMessage t =>
      withCollaborators (chatState e) (powerSaveBlocker e) (dispatched e)
                        (stored e ++ [t]) (timers e) e
  | dispatchEvent event =>
      withCollaborators (chatState e) (powerSaveBlocker e)
                        (dispatched e ++ [event]) (stored e) (timers e) e
  | setTimeout callback delay =>
      withCollaborators (chatState e) (powerSaveBlocker e) (dispatched e)
                        (stored e) (timers e ++ [(callback, delay)]) e
  | setSessionTokenCount n =>
      withTokens n (sessionInputTokens e) (sessionOutputTokens e)
                 (localInputTokens e) (localOutputTokens e) e
  | setSessionInputTokens n =>
      withTokens (sessionTokenCount e) n (sessionOutputTokens e)
                 (localInputTokens e) (localOutputTokens e) e
  | setSessionOutputTokens n =>
      withTokens (sessionTokenCount e) (sessionInputTokens e) n
                 (localInputTokens e) (localOutputTokens e) e
  | setLocalInputTokens n =>
      withTokens (sessionTokenCount e) (sessionInputTokens e)
                 (sessionOutputTokens e) n (localOutputTokens e) e
  | setLocalOutputTokens n =>
      withTokens (sessionTokenCount e) (sessionInputTokens e)
                 (sessionOutputTokens e) (localInputTokens e) n e
  | showNotification _ _ | logInfo _ | consoleLog
  | onMessageStreamFinish | onMessageSent | onSummaryReset => e
  end.

(** The calls of a handler, made in order. *)
Fixpoint run (calls : list Effect) (e : Engine) : Engine :=
  match calls with
  | [] => e
  | c :: rest => run rest (call c e)
  end.

(** The oldest pending timer fires: its callback runs. *)
Definition fireTimer (e : Engine) : Engine :=
  match timers e with
  | [] => e
  | (callback, _) :: pending =>
      run callback
          (withCollaborators (chatState e) (powerSaveBlocker e) (dispatched e)
                             (stored e) pending e)
  end.

(** The messages a list of calls hands to the stream's append, those of
    a timer callback included. *)
Fixpoint appended (c : Effect) : list Message :=
  match c with
  | originalAppend message => [message]
  | setTimeout callback _ => flat_map appended callback
  | _ => []
  end.

(** ** The token counts shown by the chat input *)

(** The [numTokens], [inputTokens] and [outputTokens] props that
    [BaseChatContent] passes to [ChatInput]. *)
Record ChatInputTokens := {
  numTokens : Z;
  inputTokens : Z;
  outputTokens : Z
}.

Definition chatInputTokens (e : Engine) : ChatInputTokens :=
  {| numTokens := sessionTokenCount e;
     inputTokens := orElse (sessionInputTokens e) (localInputTokens e);
     outputTokens := orElse (sessionOutputTokens e) (localOutputTokens e) |}.

(** ** Collaborators modelled from the spec *)

(** Modelled from the spec: [createUserMessage] of types/message is not
    under src/.  It wraps a raw string into a user message: one [text]
    block, a fresh identifier and the creation time, the two flags left
    at their defaults. *)
Definition createUserMessage (fresh : jsstring) (now : Z) (t : jsstring)
  : Message :=
  {| id := Some fresh; role := user; created := now; content := [text t];
     display := None; sendToLLM := None |}.

(** Modelled from the spec: [getTextContent] of types/message is not
    under src/.  It is the text of a message: the text of its [text]
    blocks, in order. *)
Definition getTextContent (message : Message) : jsstring :=
  flat_map (fun c => match c with text t => t | _ => [] end) (content message).

(** Modelled from the spec: the stream session of [useMessageStream] is
    not under src/.  A submission ends in one of three ways: the stream
    completes and the completion callback [onFinish] fires, the
    transport or the service fails and the failure is reported to
    [onError] with the lifecycle left in its error state, or the user
    stops it through [onStopGoose]. *)
Inductive Exit :=
| completion (now : Z)
| failure
| stopped (now later : Z).

(** Modelled from the spec: the lifecycle state the stream session is
    left in ([Idle] after a completion, the error state after a
    failure) and the handler that runs at each exit. *)
Definition exit (chat : ChatType) (hasOnMessageStreamFinish : bool)
    (x : Exit) (e : Engine) : Engine :=
  match x with
  | completion now =>
      withChatState Idle
        (run (onFinish chat hasOnMessageStreamFinish now
                       (lastInteractionTime e)) e)
  | failure => withChatState Failed (run onError e)
  | stopped now later => run (onStopGoose now later (messages e)) e
  end.

(** The engine when the hook mounts on a chat at time [now]. *)
Definition mount (chat : ChatType) (now : Z) : Engine :=
  {| messages := chat_messages chat; ancestorMessages := []; input := [];
     lastInteractionTime := now;
     sessionTokenCount := 0; sessionInputTokens := 0;
     sessionOutputTokens := 0; localInputTokens := 0; localOutputTokens := 0;
     chatState := Idle; powerSaveBlocker := false;
     dispatched := []; stored := []; timers := [] |}.

(** ** Reference definitions *)

(** The behaviour of the hook is stated against these: what a stop
    appends and restores, what the filtered view keeps, what the local
    estimates add up, how often the refresh signal went out. *)

(** The estimates of the messages of one role, added up. *)
Fixpoint estimateFor (getText : Message -> jsstring) (r : Role)
    (l : list Message) : Z :=
  match l with
  | [] => 0
  | message :: rest =>
      (match role message, r with
       | user, user | assistant, assistant =>
           estimateTokens (getText message)
       | _, _ => 0
       end) + estimateFor getText r rest
  end.

(** The estimates as the sentence reads them: over the visible
    conversation, the ancestors followed by the tail with the hidden
    messages left out. *)
Definition visibleEstimates (getText : Message -> jsstring)
    (ancestors tail : list Message) : Z * Z :=
  (estimateFor getText user (filteredMessages ancestors tail),
   estimateFor getText assistant (filteredMessages ancestors tail)).

(** The messages left once those whose [display] is explicitly [false]
    are removed. *)
Fixpoint removeHidden (l : list Message) : list Message :=
  match l with
  | [] => []
  | message :: rest =>
      match display message with
      | Some false => removeHidden rest
      | _ => message :: removeHidden rest
      end
  end.

(** The request ids of the [toolRequest] and [toolConfirmationRequest]
    blocks, in the order the blocks appear. *)
Fixpoint requestIds (blocks : list MessageContent) : list jsstring :=
  match blocks with
  | [] => []
  | toolRequest i _ :: rest => i :: requestIds rest
  | toolConfirmationRequest i _ _ :: rest => i :: requestIds rest
  | _ :: rest => requestIds rest
  end.

(** The user message that closes the requests [ids]: one error
    response per id, shown to the user and sent to the model. *)
Definition interruption (time : Z) (ids : list jsstring) : Message :=
  {| id := None;
     role := user;
     created := time;
     content :=
       List.map
         (fun i =>
            toolResponse i
              (error (lit "Interrupted by the user to make a correction")))
         ids;
     display := Some true;
     sendToLLM := Some true |}.

(** The text of the first [text] block, the empty string without one. *)
Fixpoint draftText (blocks : list MessageContent) : jsstring :=
  match blocks with
  | [] => []
  | text t :: _ => t
  | _ :: rest => draftText rest
  end.

(** How many times the stream-finished event has been dispatched. *)
Definition finishedSignals (e : Engine) : nat :=
  length
    (List.filter
       (fun event => bool_decide (event = lit "message-stream-finished"))
       (dispatched e)).

(** One completion after the other, at the given times. *)
Definition completions (chat : ChatType) (hasOnMessageStreamFinish : bool)
    (times : list Z) (e : Engine) : Engine :=
  fold_left
    (fun e now => exit chat hasOnMessageStreamFinish (completion now) e)
    times e.

(** ** Sample conversations *)

Definition sampleChat (history : list Message) : ChatType :=
  {| chat_id := lit "20240101_120000"; chat_messages := history |}.

Definition askMessage : Message :=
  createUserMessage (lit "m1") 5 (lit "list the files").

Definition toolMessage : Message :=
  {| id := Some (lit "m2"); role := assistant; created := 6;
     content :=
       [text (lit "ok");
        toolRequest (lit "a")
          (success {| name := lit "shell"; arguments := lit "{}" |});
        toolRequest (lit "b")
          (success {| name := lit "shell"; arguments := lit "{}" |})];
     display := None; sendToLLM := None |}.

Definition confirmationMessage : Message :=
  {| id := Some (lit "m3"); role := user; created := 7;
     content := [toolConfirmationRequest (lit "c") (lit "shell") (lit "{}")];
     display := None; sendToLLM := None |}.

Definition resultMessage : Message :=
  {| id := Some (lit "m4"); role := user; created := 8;
     content := [toolResponse (lit "a") (success (lit "done"))];
     display := None; sendToLLM := None |}.

Definition emptyMessage : Message :=
  {| id := Some (lit "m5"); role := user; created := 8; content := [];
     display := None; sendToLLM := None |}.

(** The metadata of a completion that reports no token at all. *)
Definition zeroMetadata : SessionMetadata :=
  {| totalTokens := Some 0; accumulatedInputTokens := Some 0;
     accumulatedOutputTokens := Some 0 |}.

Definition fortyMessage : Message :=
  createUserMessage (lit "m7") 5
    (lit "count the files here, then stop the run.").

Definition hiddenMessage : Message :=
  {| id := Some (lit "m8"); role := user; created := 5;
     content := [text (lit "count the files here, then stop the run.")];
     display := Some false; sendToLLM := Some true |}.



(** How many times a window event has been dispatched. *)
Definition signals (event : jsstring) (e : Engine) : nat :=
  length (List.filter (fun ev => bool_decide (ev = event)) (dispatched e)).

(** ** The derived views of the hook *)

(** [commandHistory], computed from the filtered messages: the trimmed
    text of the first [text] block of every user message that has one
    and whose trimmed text is not empty, most recent first. *)
Definition commandHistory (filtered : list Message) : list jsstring :=
  rev
    (fold_left
       (fun (history : list jsstring) message =>
          if isUserMessage message then
            match List.find isText (content message) with
            | Some (text t) =>
                if truthy (trim t) then history ++ [trim t] else history
            | _ => history
            end
          else history)
       filtered []).

(** A progress notification of the stream, as far as the hook reads
    it: the request it belongs to and its payload. *)
Record NotificationEvent := {
  request_id : jsstring;
  payload : jsstring
}.

(** [toolCallNotifications]: the notifications grouped by request id
    in a [Map].  The array stored under a key is created empty when
    the key is first seen and every notification is pushed onto the
    array of its key. *)
Definition toolCallNotifications (notifications : list NotificationEvent)
  : gmap jsstring (list NotificationEvent) :=
  fold_left
    (fun (map : gmap jsstring (list NotificationEvent)) item =>
       let key := request_id item in
       let map' :=
         match map !! key with
         | Some _ => map
         | None => <[key := []]> map
         end in
       match map' !! key with
       | Some group => <[key := group ++ [item]]> map'
       | None => map'
       end)
    notifications ∅.

(** The entry a message contributes to the command history: the
    trimmed text of its first [text] block when it is a user message
    and that text is not empty, nothing otherwise. *)
Definition historyEntry (message : Message) : list jsstring :=
  if isUserMessage message && truthy (trim (draftText (content message)))
  then [trim (draftText (content message))]
  else [].

(** The notifications of one request, in the order of arrival. *)
Definition notificationsOf (key : jsstring)
    (notifications : list NotificationEvent) : list NotificationEvent :=
  List.filter (fun item => bool_decide (request_id item = key)) notifications.

(** ** The chat component (BaseChat) *)

Module BaseChat.

(** What the handlers of the component do besides the calls of the
    engine: the state of the recipe splash, the submit callback of the
    Hub, scrolling (a no-op while the scroll area is not mounted) and
    timers. *)
Inductive ChatEffect :=
| engine (c : Effect)
| setHasStartedUsingRecipe (started : bool)
| onMessageSubmit (message : jsstring)
| scrollToBottom
| delayed (callback : list ChatEffect) (delay : Z).

(** [customEvent.detail?.value || ''] *)
Definition combinedText (detailValue : option jsstring) : jsstring :=
  match detailValue with
  | Some value => if truthy value then value else []
  | None => []
  end.

(** [handleSubmit] of the component.  The engine is called with
    [onMessageSent] always given; [onSummaryReset] is given when the
    summarized thread is not empty. *)
Definition handleSubmit (getTextContent : Message -> jsstring)
    (createUserMessage : jsstring -> Message) (chat : ChatType)
    (enableLocalStorage hasRecipeConfig hasOnMessageSubmit : bool)
    (summarizedThread : list Message) (now : Z) (messages : list Message)
    (detailValue : option jsstring) : list ChatEffect :=
  let combinedTextFromInput := combinedText detailValue in
  let withSummaryReset := (0 <? length summarizedThread)%nat in
  (if hasRecipeConfig && truthy (trim combinedTextFromInput)
   then [setHasStartedUsingRecipe true] else [])
  ++ (if hasOnMessageSubmit && truthy (trim combinedTextFromInput)
      then [onMessageSubmit combinedTextFromInput] else [])
  ++ List.map engine
       (handleSubmit getTextContent createUserMessage chat true
          enableLocalStorage now messages combinedTextFromInput
          withSummaryReset)
  ++ (if withSummaryReset then [delayed [scrollToBottom] 200]
      else [scrollToBottom]).

(** The calls of the engine among the calls of the component. *)
Definition engineCalls (calls : list ChatEffect) : list Effect :=
  omap (fun c => match c with engine e => Some e | _ => None end) calls.

(** The last message of role user, found by [reduceRight] from the end
    of the list. *)
Definition lastUserMessage (messages : list Message) : option Message :=
  fold_right
    (fun m (found : option Message) =>
       match found with
       | Some f => Some f
       | None => match role m with user => Some m | assistant => None end
       end)
    None messages.

(** The click on "Retry Last Message". *)
Definition retryLastMessage (getTextContent : Message -> jsstring)
    (createUserMessage : jsstring -> Message) (chat : ChatType)
    (enableLocalStorage : bool) (messages : list Message) : list Effect :=
  match lastUserMessage messages with
  | Some m =>
      append getTextContent createUserMessage chat enableLocalStorage
             messages (inl m)
  | None => []
  end.

(** The state the recipe effect reads and writes: the title of the
    recipe the component last saw, whether the user has started using
    it, and the two message lists of the engine. *)
Record RecipeState := {
  currentRecipeTitle : option jsstring;
  hasStartedUsingRecipe : bool;
  tail : list Message;
  ancestors : list Message
}.

(** Truthiness of [string | null]. *)
Definition given (title : option jsstring) : bool :=
  match title with Some t => truthy t | None => false end.

(** [recipeConfig?.title || null] *)
Definition newTitle (recipeTitle : option jsstring) : option jsstring :=
  if given recipeTitle then recipeTitle else None.

(** The effect that resets the recipe usage tracking when the recipe
    changes; [recipeTitle] is [recipeConfig?.title]. *)
Definition recipeChanged (recipeTitle : option jsstring) (s : RecipeState)
  : RecipeState :=
  let previousTitle := currentRecipeTitle s in
  let title := newTitle recipeTitle in
  if bool_decide (title = currentRecipeTitle s) then s
  else
    if given previousTitle && given title then
      {| currentRecipeTitle := title; hasStartedUsingRecipe := false;
         tail := []; ancestors := [] |}
    else if negb (given previousTitle) && given title
            && (length (tail s) =? 0)%nat then
      {| currentRecipeTitle := title; hasStartedUsingRecipe := false;
         tail := tail s; ancestors := ancestors s |}
    else if given title && (0 <? length (tail s))%nat then
      {| currentRecipeTitle := title; hasStartedUsingRecipe := true;
         tail := tail s; ancestors := ancestors s |}
    else
      {| currentRecipeTitle := title;
         hasStartedUsingRecipe := hasStartedUsingRecipe s;
         tail := tail s; ancestors := ancestors s |}.

(** What the scroll area shows between the header and the input. *)
Inductive Body :=
| recipeActivities
| popularTopicsWithTracking
| messageList
| popularTopics
| nothing.

(** The conditional that picks the body of the scroll area. *)
Definition body (hasRecipeConfig recipeAccepted hasStartedUsingRecipe
    suppressEmptyState showPopularTopics : bool)
    (filteredMessages : list Message) : Body :=
  let shouldShowSplash :=
    hasRecipeConfig && recipeAccepted && negb hasStartedUsingRecipe
    && negb suppressEmptyState in
  if shouldShowSplash then
    if hasRecipeConfig then recipeActivities
    else if showPopularTopics then popularTopicsWithTracking
    else nothing
  else if (0 <? length filteredMessages)%nat
          || (hasRecipeConfig && recipeAccepted && hasStartedUsingRecipe)
  then messageList
  else if showPopularTopics then popularTopics
  else nothing.

(** [initialValue] of the chat input:
    [_input || (messages.length === 0 ? initialPrompt : '')]. *)
Definition initialValue (input : jsstring) (messages : list Message)
    (initialPrompt : jsstring) : jsstring :=
  if truthy input then input
  else if (length messages =? 0)%nat then initialPrompt else [].

End BaseChat.

(** ** The system prompt settings *)

Module SystemPrompts.

(** [s.split(',')] for a one-character separator: the pieces between
    the separators, one piece for a string without any. *)
Fixpoint split (separator : code_unit) (s : jsstring) : list jsstring :=
  match s with
  | [] => [[]]
  | c :: rest =>
      if (c =? separator)%N then [] :: split separator rest
      else match split separator rest with
           | piece :: pieces => (c :: piece) :: pieces
           | [] => [[c]]
           end
  end.

(** [pieces.join(separator)] *)
Fixpoint join (separator : jsstring) (pieces : list jsstring) : jsstring :=
  match pieces with
  | [] => []
  | [piece] => piece
  | piece :: rest => piece ++ separator ++ join separator rest
  end.

(** [form.tags.split(',').map(tag => tag.trim()).filter(tag => tag)] *)
Definition parseTags (tags : jsstring) : list jsstring :=
  List.filter truthy (List.map trim (split 44%N tags)).

(** The [tags] field of the request body:
    [tags.length > 0 ? tags : undefined]. *)
Definition tagsField (tags : jsstring) : option (list jsstring) :=
  if (0 <? length (parseTags tags))%nat then Some (parseTags tags) else None.

(** [prompt.tags.join(', ')], the tags as the edit form shows them. *)
Definition formTags (tags : list jsstring) : jsstring := join (lit ", ") tags.

(** The effect that saves the selected prompt: the value kept in local
    storage under [selectedSystemPromptId] once it has run. *)
Definition saveSelected (selectedSystemPromptId : option jsstring)
  : option jsstring :=
  match selectedSystemPromptId with
  | Some i => if truthy i then Some i else None
  | None => None
  end.

(** The selected prompt read back from local storage:
    [saved && saved !== 'undefined']. *)
Definition loadSelected (saved : option jsstring) : option jsstring :=
  match saved with
  | Some i =>
      if truthy i && negb (bool_decide (i = lit "undefined")) then Some i
      else None
  | None => None
  end.

Record SystemPrompt := {
  prompt_id : jsstring;
  prompt_name : jsstring
}.

(** An option of the selector; the clear option carries no prompt. *)
Record SelectOption := {
  value : jsstring;
  label : jsstring;
  prompt : option SystemPrompt
}.

Definition options (allowClear : bool) (prompts : list SystemPrompt)
  : list SelectOption :=
  (if allowClear
   then [{| value := lit "none"; label := lit "Use default prompt";
            prompt := None |}]
   else [])
  ++ List.map
       (fun p => {| value := prompt_id p; label := prompt_name p;
                    prompt := Some p |})
       prompts.

(** [options.find(opt => opt.value === (value || 'none'))] *)
Definition selectedOption (allowClear : bool) (prompts : list SystemPrompt)
    (selected : option jsstring) : option SelectOption :=
  let wanted :=
    match selected with
    | Some v => if truthy v then v else lit "none"
    | None => lit "none"
    end in
  List.find (fun opt => bool_decide (value opt = wanted))
            (options allowClear prompts).

(** [handleValueChange]: the argument handed to [onChange]. *)
Definition handleValueChange (selected : option SelectOption)
  : option jsstring :=
  match selected with
  | None => None
  | Some option =>
      if bool_decide (value option = lit "none") then None
      else Some (value option)
  end.

End SystemPrompts.

(** * Properties *)

(** ** Strings and arrays *)

Lemma trimStart_nil (s : jsstring) :
  trimStart s = [] <-> forallb isWhiteSpace s = true.
Proof.
  induction s as [|c s IH]; simpl; [tauto|].
  destruct (isWhiteSpace c); simpl; [exact IH|].
  split; discriminate.
Qed.

Lemma trimStart_suffix (s : jsstring) :
  exists spaces,
    s = spaces ++ trimStart s /\ forallb isWhiteSpace spaces = true.
Proof.
  induction s as [|c s (spaces & Hs & Hall)]; simpl.
  - exists []. split; reflexivity.
  - destruct (isWhiteSpace c) eqn:Hc.
    + exists (c :: spaces). simpl. rewrite Hc, Hall.
      split; [congruence | reflexivity].
    + exists []. split; reflexivity.
Qed.

Lemma forallb_reverse {A} (f : A -> bool) (l : list A) :
  forallb f (rev l) = forallb f l.
Proof.
  induction l as [|x l IH]; simpl; [reflexivity|].
  rewrite forallb_app, IH. simpl. rewrite andb_true_r. apply andb_comm.
Qed.

(** [trim] leaves the empty string exactly on the strings made of white
    space only. *)
Lemma truthy_trim (s : jsstring) :
  truthy (trim s) = negb (forallb isWhiteSpace s).
Proof.
  unfold trim, trimEnd.
  destruct (forallb isWhiteSpace s) eqn:Hall.
  - apply trimStart_nil in Hall. rewrite Hall. reflexivity.
  - destruct (trimStart (rev (trimStart s))) as [|c r] eqn:Hrev.
    + apply trimStart_nil in Hrev. rewrite forallb_reverse in Hrev.
      destruct (trimStart_suffix s) as (spaces & Hs & Hsp).
      rewrite Hs, forallb_app, Hsp, Hrev in Hall. discriminate.
    + simpl. destruct (rev r ++ [c]) eqn:E; [|reflexivity].
      destruct (rev r); discriminate.
Qed.

Lemma index_last {A} (a : list A) (x : A) :
  index (a ++ [x]) (Z.of_nat (length (a ++ [x])) - 1) = Some x.
Proof.
  unfold index. rewrite length_app. simpl.
  destruct (Z.ltb_spec (Z.of_nat (length a + 1) - 1) 0); [lia|].
  replace (Z.to_nat (Z.of_nat (length a + 1) - 1)) with (length a) by lia.
  rewrite lookup_app_r by lia. rewrite Nat.sub_diag. reflexivity.
Qed.

Lemma slice_drop_last {A} (a : list A) (x : A) :
  slice (a ++ [x]) 0 (-1) = a.
Proof.
  unfold slice, sliceIndex. rewrite length_app. simpl.
  replace (Z.to_nat (Z.min 0 (Z.of_nat (length a + 1)))) with 0%nat by lia.
  replace (Z.to_nat (Z.max (Z.of_nat (length a + 1) + -1) 0
                     - Z.min 0 (Z.of_nat (length a + 1))))
    with (length a) by lia.
  rewrite drop_0. apply take_app_length.
Qed.

(** ** Token estimates *)

Lemma estimateTokens_div (t : jsstring) :
  estimateTokens t = (Z.of_nat (length t) + 3) / 4.
Proof.
  unfold estimateTokens, Qceiling, Qfloor. simpl.
  rewrite Z.mul_1_r.
  change (Z.pos (1 * 4)) with 4.
  set (n := Z.of_nat (length t)).
  pose proof (Z.div_mod (- n) 4 ltac:(lia)).
  pose proof (Z.mod_pos_bound (- n) 4 ltac:(lia)).
  pose proof (Z.div_mod (n + 3) 4 ltac:(lia)).
  pose proof (Z.mod_pos_bound (n + 3) 4 ltac:(lia)).
  lia.
Qed.

Lemma countTokens_from (getText : Message -> jsstring) (l : list Message)
    (i o : Z) :
  fold_left
    (fun (acc : Z * Z) message =>
       let '(inputTokens, outputTokens) := acc in
       let textContent := getText message in
       if truthy textContent then
         let tokens := estimateTokens textContent in
         match role message with
         | user => (inputTokens + tokens, outputTokens)
         | assistant => (inputTokens, outputTokens + tokens)
         end
       else acc)
    l (i, o)
  = (i + estimateFor getText user l, o + estimateFor getText assistant l).
Proof.
  revert i o. induction l as [|message rest IH]; intros i o; simpl.
  - f_equal; lia.
  - destruct (getText message) as [|c t] eqn:Ht; simpl.
    + rewrite IH. destruct (role message); f_equal; lia.
    + destruct (role message); rewrite IH; f_equal; lia.
Qed.

(** ** The filtered view *)

Lemma filter_removeHidden (l : list Message) :
  List.filter displayOrTrue l = removeHidden l.
Proof.
  induction l as [|message rest IH]; simpl; [reflexivity|].
  rewrite IH. unfold displayOrTrue.
  destruct (display message) as [[|]|]; reflexivity.
Qed.

Lemma removeHidden_sublist (l : list Message) : sublist (removeHidden l) l.
Proof.
  induction l as [|message rest IH]; simpl; [constructor|].
  destruct (display message) as [[|]|]; constructor; exact IH.
Qed.

Lemma removeHidden_elem (l : list Message) (message : Message) :
  message ∈ removeHidden l <-> message ∈ l /\ display message <> Some false.
Proof.
  induction l as [|x rest IH]; simpl.
  - split; [intros H | intros [H _]]; inversion H.
  - destruct (display x) as [[|]|] eqn:Hx; rewrite ?elem_of_cons, IH;
      intuition (subst; congruence).
Qed.

(** C4. The filtered view is the ancestors followed by the tail with
    exactly the messages whose [display] is explicitly [false] removed:
    it is the filtered ancestors followed by the filtered tail, it keeps
    the order of the conversation, and a message is in it exactly when
    it is in the conversation and is not explicitly hidden. *)
Theorem filteredMessages_removes_hidden (ancestors tail : list Message) :
  filteredMessages ancestors tail = removeHidden (ancestors ++ tail)
  /\ filteredMessages ancestors tail
     = removeHidden ancestors ++ removeHidden tail
  /\ sublist (filteredMessages ancestors tail) (ancestors ++ tail)
  /\ forall message,
       message ∈ filteredMessages ancestors tail
       <-> message ∈ ancestors ++ tail /\ display message <> Some false.
Proof.
  unfold filteredMessages. rewrite filter_removeHidden.
  split; [reflexivity|]. split; [|split].
  - rewrite <- !filter_removeHidden. apply List.filter_app.
  - apply removeHidden_sublist.
  - apply removeHidden_elem.
Qed.

(** ** Stopping *)

Lemma toolRequests_ids (lastMessage : Message) :
  List.map fst (toolRequests lastMessage) = requestIds (content lastMessage).
Proof.
  unfold toolRequests.
  induction (content lastMessage) as [|c rest IH]; simpl; [reflexivity|].
  destruct c; simpl; try exact IH; f_equal; exact IH.
Qed.

Lemma responseMessage_interruption (later : Z) (lastMessage : Message) :
  responseMessage later (toolRequests lastMessage)
  = interruption later (requestIds (content lastMessage)).
Proof.
  unfold responseMessage, interruption.
  rewrite <- toolRequests_ids, List.map_map. reflexivity.
Qed.

Lemma textValue_draftText (lastMessage : Message) :
  textValue lastMessage = draftText (content lastMessage).
Proof.
  unfold textValue.
  induction (content lastMessage) as [|c rest IH]; simpl; [reflexivity|].
  destruct c as [t| | | |]; simpl; try exact IH.
  destruct t; reflexivity.
Qed.

(** What [onStopGoose] does when the list ends in [lastMessage]. *)
Lemma onStopGoose_last (now later : Z) (earlier : list Message)
    (lastMessage : Message) :
  onStopGoose now later (earlier ++ [lastMessage])
  = [stop; setLastInteractionTime now; stopPowerSaveBlocker]
    ++ (if isUserMessage lastMessage
           && negb (existsb isToolResponse (content lastMessage))
        then [setInput (draftText (content lastMessage)); setMessages earlier]
        else if isUserMessage lastMessage then []
        else match requestIds (content lastMessage) with
             | [] => []
             | ids =>
                 [setMessages
                    (earlier ++ [lastMessage] ++ [interruption later ids])]
             end).
Proof.
  unfold onStopGoose. rewrite index_last. f_equal.
  destruct (isUserMessage lastMessage); simpl.
  - destruct (existsb isToolResponse (content lastMessage)); simpl;
      [reflexivity|].
    rewrite textValue_draftText. do 2 f_equal.
    destruct earlier as [|m earlier]; [reflexivity|].
    replace (1 <? length ((m :: earlier) ++ [lastMessage]))%nat with true.
    + rewrite slice_drop_last. reflexivity.
    + symmetry. apply Nat.ltb_lt. rewrite length_app. simpl. lia.
  - rewrite responseMessage_interruption, <- toolRequests_ids.
    destruct (toolRequests lastMessage); simpl; [reflexivity|].
    rewrite <- app_assoc. reflexivity.
Qed.

(** C1. When the last message is an assistant message, stopping appends
    exactly one user message (shown, sent to the model) that holds, in
    the order of the requests, one error response "Interrupted by the
    user to make a correction" per [toolRequest] or
    [toolConfirmationRequest] id; the earlier messages and the assistant
    message stay as they are, and nothing is appended when the
    assistant message holds no such block. *)
Theorem stop_closes_tool_requests (now later : Z) (e : Engine)
    (earlier : list Message) (lastMessage : Message) :
  messages e = earlier ++ [lastMessage] ->
  role lastMessage = assistant ->
  messages (run (onStopGoose now later (messages e)) e)
  = match requestIds (content lastMessage) with
    | [] => earlier ++ [lastMessage]
    | ids => earlier ++ [lastMessage] ++ [interruption later ids]
    end.
Proof.
  intros Hlast Hrole. rewrite Hlast at 1. rewrite onStopGoose_last.
  unfold isUserMessage. rewrite Hrole. simpl.
  destruct (requestIds (content lastMessage)); simpl; [exact Hlast|].
  reflexivity.
Qed.

(** C2. When the last message is a genuine user message (role user, not
    made of confirmation requests only) without a [toolResponse] block,
    stopping hands the text of its text block (the empty string without
    one) to the input and removes that message alone: the earlier
    messages are what is left, nothing when it was the only one. *)
Theorem stop_restores_draft (now later : Z) (e : Engine)
    (earlier : list Message) (lastMessage : Message) :
  messages e = earlier ++ [lastMessage] ->
  role lastMessage = user ->
  forallb isToolConfirmationRequest (content lastMessage) = false ->
  existsb isToolResponse (content lastMessage) = false ->
  input (run (onStopGoose now later (messages e)) e)
  = draftText (content lastMessage)
  /\ messages (run (onStopGoose now later (messages e)) e) = earlier.
Proof.
  intros Hlast Hrole Hconf Hresp. rewrite Hlast. rewrite onStopGoose_last.
  unfold isUserMessage. rewrite Hrole, Hconf, Hresp. simpl.
  split; reflexivity.
Qed.

(** C10. A message of role user without content blocks is not a user
    message for [isUserMessage]; when it is the last message, stopping
    restores no draft, removes nothing and appends nothing: the stream
    is stopped, the interaction time and the keep-awake handle are
    updated, and that is all. *)
Theorem stop_on_empty_user_message (now later : Z) (e : Engine)
    (earlier : list Message) (lastMessage : Message) :
  messages e = earlier ++ [lastMessage] ->
  role lastMessage = user ->
  content lastMessage = [] ->
  isUserMessage lastMessage = false
  /\ onStopGoose now later (messages e)
     = [stop; setLastInteractionTime now; stopPowerSaveBlocker]
  /\ messages (run (onStopGoose now later (messages e)) e) = messages e
  /\ input (run (onStopGoose now later (messages e)) e) = input e.
Proof.
  intros Hlast Hrole Hcontent.
  assert (Hnot : isUserMessage lastMessage = false).
  { unfold isUserMessage. rewrite Hrole, Hcontent. reflexivity. }
  assert (Hcalls : onStopGoose now later (messages e)
                   = [stop; setLastInteractionTime now; stopPowerSaveBlocker]).
  { rewrite Hlast, onStopGoose_last, Hnot, Hcontent. reflexivity. }
  rewrite Hcalls. split; [exact Hnot|]. split; [|split]; reflexivity.
Qed.

(** C3, as amended.  When the last message has role user and is either
    made of confirmation requests only or carries a [toolResponse]
    block, stopping restores no draft and removes nothing.  The list is
    left as it is for a genuine user message with a [toolResponse]
    block and for a message without blocks; a message made of one or
    more confirmation requests is handled like an assistant message:
    one user message with an error response per request id is
    appended. *)
Theorem stop_without_draft_recovery (now later : Z) (e : Engine)
    (earlier : list Message) (lastMessage : Message) :
  messages e = earlier ++ [lastMessage] ->
  role lastMessage = user ->
  forallb isToolConfirmationRequest (content lastMessage) = true
  \/ existsb isToolResponse (content lastMessage) = true ->
  input (run (onStopGoose now later (messages e)) e) = input e
  /\ messages (run (onStopGoose now later (messages e)) e)
     = if forallb isToolConfirmationRequest (content lastMessage)
       then match requestIds (content lastMessage) with
            | [] => messages e
            | ids => messages e ++ [interruption later ids]
            end
       else messages e.
Proof.
  intros Hlast Hrole Hshape.
  assert (Hcalls :
    onStopGoose now later (messages e)
    = [stop; setLastInteractionTime now; stopPowerSaveBlocker]
      ++ if forallb isToolConfirmationRequest (content lastMessage)
         then match requestIds (content lastMessage) with
              | [] => []
              | ids => [setMessages (messages e ++ [interruption later ids])]
              end
         else []).
  { rewrite Hlast, onStopGoose_last. unfold isUserMessage. rewrite Hrole.
    destruct (forallb isToolConfirmationRequest (content lastMessage)); simpl.
    - destruct (requestIds (content lastMessage)); [reflexivity|].
      rewrite <- app_assoc. reflexivity.
    - destruct Hshape as [Hconf | Hresp]; [discriminate|].
      rewrite Hresp. reflexivity. }
  rewrite Hcalls.
  destruct (forallb isToolConfirmationRequest (content lastMessage));
    [destruct (requestIds (content lastMessage))|]; split; reflexivity.
Qed.

Lemma stop_closes_tool_requests_sample :
  messages (run (onStopGoose 9 10 [askMessage; toolMessage])
                (mount (sampleChat [askMessage; toolMessage]) 0))
  = [askMessage; toolMessage; interruption 10 [lit "a"; lit "b"]].
Proof.
  apply (stop_closes_tool_requests 9 10
           (mount (sampleChat [askMessage; toolMessage]) 0)
           [askMessage] toolMessage); reflexivity.
Defined.

Lemma stop_restores_draft_sample :
  input (run (onStopGoose 9 10 [askMessage])
             (mount (sampleChat [askMessage]) 0))
  = lit "list the files"
  /\ messages (run (onStopGoose 9 10 [askMessage])
                   (mount (sampleChat [askMessage]) 0)) = [].
Proof.
  apply (stop_restores_draft 9 10 (mount (sampleChat [askMessage]) 0)
           [] askMessage); reflexivity.
Defined.

Lemma stop_on_empty_user_message_sample :
  isUserMessage emptyMessage = false
  /\ onStopGoose 9 10 [toolMessage; emptyMessage]
     = [stop; setLastInteractionTime 9; stopPowerSaveBlocker]
  /\ messages (run (onStopGoose 9 10 [toolMessage; emptyMessage])
                   (mount (sampleChat [toolMessage; emptyMessage]) 0))
     = [toolMessage; emptyMessage]
  /\ input (run (onStopGoose 9 10 [toolMessage; emptyMessage])
                (mount (sampleChat [toolMessage; emptyMessage]) 0)) = [].
Proof.
  apply (stop_on_empty_user_message 9 10
           (mount (sampleChat [toolMessage; emptyMessage]) 0)
           [toolMessage] emptyMessage); reflexivity.
Defined.

Lemma stop_without_draft_recovery_sample :
  input (run (onStopGoose 9 10 [toolMessage; resultMessage])
             (mount (sampleChat [toolMessage; resultMessage]) 0)) = []
  /\ messages (run (onStopGoose 9 10 [toolMessage; resultMessage])
                   (mount (sampleChat [toolMessage; resultMessage]) 0))
     = [toolMessage; resultMessage].
Proof.
  apply (stop_without_draft_recovery 9 10
           (mount (sampleChat [toolMessage; resultMessage]) 0)
           [toolMessage] resultMessage); [reflexivity | reflexivity |].
  right. reflexivity.
Defined.

(** C3 as stated fails: a last message made of one confirmation request
    is a shape outside the two recovery cases, yet stopping appends a
    synthesized message to the list. *)
Lemma stop_on_confirmation_requests_appends :
  role confirmationMessage = user
  /\ isUserMessage confirmationMessage = false
  /\ messages (run (onStopGoose 9 10 [toolMessage; confirmationMessage])
                   (mount (sampleChat [toolMessage; confirmationMessage]) 0))
     = [toolMessage; confirmationMessage; interruption 10 [lit "c"]]
  /\ messages (run (onStopGoose 9 10 [toolMessage; confirmationMessage])
                   (mount (sampleChat [toolMessage; confirmationMessage]) 0))
     <> [toolMessage; confirmationMessage].
Proof.
  split; [reflexivity|]. split; [reflexivity|]. split; [reflexivity|].
  intros H. apply (f_equal (@length Message)) in H. discriminate H.
Qed.

(** ** Submitting *)

Lemma run_app (first second : list Effect) (e : Engine) :
  run (first ++ second) e = run second (run first e).
Proof.
  revert e. induction first as [|c first IH]; intros e; simpl;
    [reflexivity | apply IH].
Qed.

Section Submitting.

Variable getText : Message -> jsstring.
Variable create : jsstring -> Message.
Variable chat : ChatType.
Variable hasOnMessageSent : bool.
Variable enableLocalStorage : bool.

(** [append] followed by the optional [onMessageSent] hands the message
    to the stream, once. *)
Lemma appended_append (messages : list Message) (message : Message) :
  flat_map appended
    (append getText create chat enableLocalStorage messages (inl message)
     ++ optionalCall hasOnMessageSent onMessageSent)
  = [message].
Proof.
  unfold append, storeMessageInHistory.
  destruct (enableLocalStorage && isUserMessage message),
    (truthy (getText message)),
    ((length messages =? 0)%nat && (length (chat_messages chat) =? 0)%nat),
    hasOnMessageSent; reflexivity.
Qed.

Lemma run_append (history : list Message) (message : Message) (e : Engine) :
  messages
    (run (append getText create chat enableLocalStorage history (inl message)
          ++ optionalCall hasOnMessageSent onMessageSent) e)
  = messages e ++ [message]
  /\ chatState
       (run (append getText create chat enableLocalStorage history
                    (inl message)
             ++ optionalCall hasOnMessageSent onMessageSent) e)
     = Streaming.
Proof.
  unfold append, storeMessageInHistory.
  destruct (enableLocalStorage && isUserMessage message),
    (truthy (getText message)),
    ((length history =? 0)%nat && (length (chat_messages chat) =? 0)%nat),
    hasOnMessageSent; split; reflexivity.
Qed.

(** C5. A text that is empty or made of white space only appends
    nothing and opens no stream session, and the keep-awake handle is
    released: the one call made is [stopPowerSaveBlocker].  A text with
    other content hands the stream exactly one message, the user
    message made from the trimmed text (possibly from the timer of the
    summary reset); without a summary reset the message is at the tail
    at once and the stream session is open. *)
Theorem submit_blank_or_text (now : Z) (e : Engine) (typed : jsstring)
    (withSummaryReset : bool) :
  (forallb isWhiteSpace typed = true ->
   handleSubmit getText create chat hasOnMessageSent enableLocalStorage
                now (messages e) typed withSummaryReset
   = [stopPowerSaveBlocker]
   /\ messages
        (run (handleSubmit getText create chat hasOnMessageSent
                           enableLocalStorage now (messages e) typed
                           withSummaryReset) e)
      = messages e
   /\ chatState
        (run (handleSubmit getText create chat hasOnMessageSent
                           enableLocalStorage now (messages e) typed
                           withSummaryReset) e)
      = chatState e
   /\ powerSaveBlocker
        (run (handleSubmit getText create chat hasOnMessageSent
                           enableLocalStorage now (messages e) typed
                           withSummaryReset) e)
      = false)
  /\ (forallb isWhiteSpace typed = false ->
      flat_map appended
        (handleSubmit getText create chat hasOnMessageSent enableLocalStorage
                      now (messages e) typed withSummaryReset)
      = [create (trim typed)]
      /\ messages
           (run (handleSubmit getText create chat hasOnMessageSent
                              enableLocalStorage now (messages e) typed
                              false) e)
         = messages e ++ [create (trim typed)]
      /\ chatState
           (run (handleSubmit getText create chat hasOnMessageSent
                              enableLocalStorage now (messages e) typed
                              false) e)
         = Streaming).
Proof.
  unfold handleSubmit. rewrite truthy_trim. split; intros Hblank;
    rewrite Hblank; simpl.
  - repeat (split; [reflexivity|]). reflexivity.
  - split.
    + destruct withSummaryReset; simpl; [rewrite app_nil_r|];
        apply appended_append.
    + apply (run_append (messages e) (create (trim typed))
               (call (setLastInteractionTime now)
                     (call startPowerSaveBlocker e))).
Qed.

(** With a summary reset the append waits for the timer: once it has
    fired the message is at the tail. *)
Lemma deferred_submit_appends (now : Z) (e : Engine) (typed : jsstring) :
  forallb isWhiteSpace typed = false ->
  timers e = [] ->
  messages
    (fireTimer
       (run (handleSubmit getText create chat hasOnMessageSent
                          enableLocalStorage now (messages e) typed true) e))
  = messages e ++ [create (trim typed)].
Proof.
  intros Htext Htimers. unfold handleSubmit.
  rewrite truthy_trim, Htext. simpl. unfold fireTimer. simpl.
  rewrite Htimers. simpl.
  match goal with
  | |- messages (run _ ?st) = _ =>
      apply (run_append (messages e) (create (trim typed)) st)
  end.
Qed.

End Submitting.

Lemma submit_blank_or_text_sample :
  (handleSubmit getTextContent (createUserMessage (lit "m6") 9)
                (sampleChat []) true false 9 [] (lit "   ") false
   = [stopPowerSaveBlocker]
   /\ messages
        (run (handleSubmit getTextContent (createUserMessage (lit "m6") 9)
                (sampleChat []) true false 9 [] (lit "   ") false)
             (mount (sampleChat []) 0)) = []
   /\ chatState
        (run (handleSubmit getTextContent (createUserMessage (lit "m6") 9)
                (sampleChat []) true false 9 [] (lit "   ") false)
             (mount (sampleChat []) 0)) = Idle
   /\ powerSaveBlocker
        (run (handleSubmit getTextContent (createUserMessage (lit "m6") 9)
                (sampleChat []) true false 9 [] (lit "   ") false)
             (mount (sampleChat []) 0)) = false)
  /\ (flat_map appended
        (handleSubmit getTextContent (createUserMessage (lit "m6") 9)
                (sampleChat []) true false 9 [] (lit "  hi  ") false)
      = [createUserMessage (lit "m6") 9 (lit "hi")]
      /\ messages
           (run (handleSubmit getTextContent (createUserMessage (lit "m6") 9)
                   (sampleChat []) true false 9 [] (lit "  hi  ") false)
                (mount (sampleChat []) 0))
         = [createUserMessage (lit "m6") 9 (lit "hi")]
      /\ chatState
           (run (handleSubmit getTextContent (createUserMessage (lit "m6") 9)
                   (sampleChat []) true false 9 [] (lit "  hi  ") false)
                (mount (sampleChat []) 0))
         = Streaming).
Proof.
  split.
  - apply (submit_blank_or_text getTextContent
             (createUserMessage (lit "m6") 9) (sampleChat []) true false 9
             (mount (sampleChat []) 0) (lit "   ") false).
    reflexivity.
  - apply (submit_blank_or_text getTextContent
             (createUserMessage (lit "m6") 9) (sampleChat []) true false 9
             (mount (sampleChat []) 0) (lit "  hi  ") false).
    reflexivity.
Defined.

(** ** Token counts *)

Lemma orZero_some (v : Z) : orZero (Some v) = v.
Proof. unfold orZero, orElse. destruct (Z.eqb_spec v 0); congruence. Qed.

Lemma local_token_estimates_tail (getText : Message -> jsstring)
    (tail : list Message) :
  countTokens getText tail
  = (estimateFor getText user tail, estimateFor getText assistant tail).
Proof. unfold countTokens. rewrite countTokens_from. reflexivity. Qed.

(** C6, as amended.  The estimate of a text is its length divided by 4
    and rounded up (10 for a text of 40 characters), and the local
    input and output estimates are the estimates of the role-user and
    of the role-assistant messages of the live message list added up
    separately; the ancestors are not counted and hidden messages of
    the live list are. *)
Theorem local_token_estimates (getText : Message -> jsstring)
    (t : jsstring) (tail : list Message) (e : Engine) :
  estimateTokens t = (Z.of_nat (length t) + 3) / 4
  /\ 4 * (estimateTokens t - 1) < Z.of_nat (length t) <= 4 * estimateTokens t
  /\ (length t = 40%nat -> estimateTokens t = 10)
  /\ countTokens getText tail
     = (estimateFor getText user tail, estimateFor getText assistant tail)
  /\ localInputTokens (run (updateLocalTokens getText tail) e)
     = estimateFor getText user tail
  /\ localOutputTokens (run (updateLocalTokens getText tail) e)
     = estimateFor getText assistant tail.
Proof.
  pose proof (local_token_estimates_tail getText tail) as Hcount.
  rewrite estimateTokens_div.
  pose proof (Z.div_mod (Z.of_nat (length t) + 3) 4 ltac:(lia)) as Hdiv.
  pose proof (Z.mod_pos_bound (Z.of_nat (length t) + 3) 4 ltac:(lia)) as Hmod.
  split; [reflexivity|]. split; [lia|]. split.
  - intros Hlen. rewrite Hlen. reflexivity.
  - split; [exact Hcount|]. unfold updateLocalTokens. rewrite Hcount.
    split; reflexivity.
Qed.

Lemma local_token_estimates_sample :
  estimateTokens (getTextContent fortyMessage) = 10.
Proof.
  apply (local_token_estimates getTextContent (getTextContent fortyMessage)
           [] (mount (sampleChat []) 0)).
  reflexivity.
Defined.

(** C6 as stated fails: the local estimates are not those of the visible
    conversation.  A message among the ancestors is visible and is not
    counted; a hidden message of the live list is not visible and is
    counted. *)
Lemma local_estimates_not_over_visible_conversation :
  countTokens getTextContent []
  <> visibleEstimates getTextContent [fortyMessage] []
  /\ countTokens getTextContent [hiddenMessage]
     <> visibleEstimates getTextContent [] [hiddenMessage].
Proof. split; discriminate. Qed.

(** C7, as amended.  Once token counts have come in, from the metadata
    of a stream completion or from a session-details fetch, the total
    shown is the authoritative total, and the input and output counts
    shown are the authoritative ones when these are not zero; an
    authoritative zero shows the local estimate in its place, as does
    the state before any count has come in. *)
Theorem displayed_tokens_after_metadata (getText : Message -> jsstring)
    (e : Engine) (total tokensIn tokensOut : Z)
    (c : code_unit) (rest : jsstring) (history tail : list Message)
    (now : Z) :
  let fromStream :=
    run (updateSessionTokens
           (Some {| totalTokens := Some total;
                    accumulatedInputTokens := Some tokensIn;
                    accumulatedOutputTokens := Some tokensOut |})) e in
  let fromFetch :=
    run (fetchSessionTokens
           {| chat_id := c :: rest; chat_messages := history |}
           (Some {| total_tokens := Some total;
                    accumulated_input_tokens := Some tokensIn;
                    accumulated_output_tokens := Some tokensOut |})) e in
  let before :=
    run (updateLocalTokens getText tail)
        (mount {| chat_id := c :: rest; chat_messages := history |} now) in
  chatInputTokens fromStream
  = {| numTokens := total;
       inputTokens := if tokensIn =? 0 then localInputTokens e else tokensIn;
       outputTokens := if tokensOut =? 0 then localOutputTokens e
                       else tokensOut |}
  /\ chatInputTokens fromFetch = chatInputTokens fromStream
  /\ chatInputTokens before
     = {| numTokens := 0;
          inputTokens := estimateFor getText user tail;
          outputTokens := estimateFor getText assistant tail |}.
Proof.
  split; [|split].
  - unfold chatInputTokens. cbn -[orZero orElse Z.eqb].
    rewrite !orZero_some. reflexivity.
  - reflexivity.
  - pose proof (local_token_estimates_tail getText tail) as Hcount.
    unfold updateLocalTokens. rewrite Hcount. reflexivity.
Qed.

(** C7 as stated fails: with a user text of 40 characters estimated at
    10 tokens, authoritative counts of zero leave 10 on display. *)
Lemma authoritative_zero_shows_local_estimate :
  sessionInputTokens
    (run (updateSessionTokens (Some zeroMetadata))
       (run (updateLocalTokens getTextContent [fortyMessage])
            (mount (sampleChat [fortyMessage]) 0))) = 0
  /\ inputTokens
       (chatInputTokens
          (run (updateSessionTokens (Some zeroMetadata))
             (run (updateLocalTokens getTextContent [fortyMessage])
                  (mount (sampleChat [fortyMessage]) 0)))) = 10
  /\ inputTokens
       (chatInputTokens
          (run (updateSessionTokens (Some zeroMetadata))
             (run (updateLocalTokens getTextContent [fortyMessage])
                  (mount (sampleChat [fortyMessage]) 0))))
     <> orZero (accumulatedInputTokens zeroMetadata).
Proof. split; [reflexivity|]. split; [reflexivity | discriminate]. Qed.

(** ** The keep-awake handle *)

Lemma submit_holds_power_save_blocker (getText : Message -> jsstring)
    (create : jsstring -> Message) (chat : ChatType)
    (hasOnMessageSent enableLocalStorage : bool) (now : Z) (e : Engine)
    (typed : jsstring) :
  forallb isWhiteSpace typed = false ->
  powerSaveBlocker
    (run (handleSubmit getText create chat hasOnMessageSent
                       enableLocalStorage now (messages e) typed false) e)
  = true.
Proof.
  intros Htext. unfold handleSubmit. rewrite truthy_trim, Htext. simpl.
  unfold append, storeMessageInHistory.
  destruct (enableLocalStorage && isUserMessage (create (trim typed))),
    (truthy (getText (create (trim typed)))),
    ((length (messages e) =? 0)%nat && (length (chat_messages chat) =? 0)%nat),
    hasOnMessageSent; reflexivity.
Qed.

Lemma run_onFinish (chat : ChatType) (hasOnMessageStreamFinish : bool)
    (now : Z) (e : Engine) :
  run (onFinish chat hasOnMessageStreamFinish now (lastInteractionTime e)) e
  = withCollaborators (chatState e) false
      (dispatched e
       ++ if isNewSession chat then [lit "message-stream-finished"] else [])
      (stored e) (timers e) e.
Proof.
  unfold onFinish.
  destruct (now - lastInteractionTime e >? 60000), (isNewSession chat),
    hasOnMessageStreamFinish; simpl; rewrite ?app_nil_r; reflexivity.
Qed.

(** A completion and a stop release the handle. *)
Lemma completion_releases (chat : ChatType) (hasOnMessageStreamFinish : bool)
    (now : Z) (e : Engine) :
  powerSaveBlocker (exit chat hasOnMessageStreamFinish (completion now) e)
  = false.
Proof. unfold exit. rewrite run_onFinish. reflexivity. Qed.

Lemma run_prefix_onStopGoose (now later : Z) (history : list Message)
    (e : Engine) :
  exists recovery,
    onStopGoose now later history
    = [stop; setLastInteractionTime now; stopPowerSaveBlocker] ++ recovery
    /\ (recovery = []
        \/ (exists value l, recovery = [setInput value; setMessages l])
        \/ exists l, recovery = [setMessages l]).
Proof.
  unfold onStopGoose. eexists. split; [reflexivity|].
  destruct (index history (Z.of_nat (length history) - 1)) as [lastMessage|];
    [|left; reflexivity].
  destruct (isUserMessage lastMessage
            && negb (existsb isToolResponse (content lastMessage))).
  - right. left.
    destruct (1 <? length history)%nat; eexists; eexists; reflexivity.
  - destruct (negb (isUserMessage lastMessage)); [|left; reflexivity].
    destruct (negb (length (toolRequests lastMessage) =? 0)%nat);
      [right; right; eexists; reflexivity | left; reflexivity].
Qed.

Lemma stop_releases (chat : ChatType) (hasOnMessageStreamFinish : bool)
    (now later : Z) (e : Engine) :
  powerSaveBlocker (exit chat hasOnMessageStreamFinish (stopped now later) e)
  = false.
Proof.
  unfold exit.
  destruct (run_prefix_onStopGoose now later (messages e) e)
    as (recovery & -> & [-> | [(value & l & ->) | (l & ->)]]); reflexivity.
Qed.

(** A failure leaves the handle as it was. *)
Lemma failure_keeps (chat : ChatType) (hasOnMessageStreamFinish : bool)
    (e : Engine) :
  powerSaveBlocker (exit chat hasOnMessageStreamFinish failure e)
  = powerSaveBlocker e.
Proof. reflexivity. Qed.

(** C8 fails on the error exit.  After the submission of "hi" the
    handle is held; a completion releases it, a stop releases it, and a
    stream failure leaves it held: [onError] only logs. *)
Theorem failure_leaves_power_save_blocker_held :
  powerSaveBlocker
    (run (handleSubmit getTextContent (createUserMessage (lit "m6") 9)
            (sampleChat []) true false 9 [] (lit "hi") false)
         (mount (sampleChat []) 0)) = true
  /\ powerSaveBlocker
       (exit (sampleChat []) true (completion 20)
          (run (handleSubmit getTextContent (createUserMessage (lit "m6") 9)
                  (sampleChat []) true false 9 [] (lit "hi") false)
               (mount (sampleChat []) 0))) = false
  /\ powerSaveBlocker
       (exit (sampleChat []) true (stopped 20 21)
          (run (handleSubmit getTextContent (createUserMessage (lit "m6") 9)
                  (sampleChat []) true false 9 [] (lit "hi") false)
               (mount (sampleChat []) 0))) = false
  /\ powerSaveBlocker
       (exit (sampleChat []) true failure
          (run (handleSubmit getTextContent (createUserMessage (lit "m6") 9)
                  (sampleChat []) true false 9 [] (lit "hi") false)
               (mount (sampleChat []) 0))) = true.
Proof. repeat (split; [reflexivity|]). reflexivity. Qed.

(** ** The refresh signal *)

Lemma finishedSignals_completion (chat : ChatType)
    (hasOnMessageStreamFinish : bool) (now : Z) (e : Engine) :
  finishedSignals (exit chat hasOnMessageStreamFinish (completion now) e)
  = (finishedSignals e + if isNewSession chat then 1 else 0)%nat.
Proof.
  unfold exit, finishedSignals. rewrite run_onFinish. simpl.
  rewrite List.filter_app, length_app.
  destruct (isNewSession chat); reflexivity.
Qed.

Lemma finishedSignals_completions (chat : ChatType)
    (hasOnMessageStreamFinish : bool) (times : list Z) (e : Engine) :
  finishedSignals (completions chat hasOnMessageStreamFinish times e)
  = (finishedSignals e
     + if isNewSession chat then length times else 0)%nat.
Proof.
  unfold completions. revert e.
  induction times as [|now times IH]; intros e; cbn [fold_left].
  - destruct (isNewSession chat); simpl; lia.
  - rewrite IH, finishedSignals_completion.
    destruct (isNewSession chat); simpl; lia.
Qed.

(** C9, as amended.  For a session id in the date-time format the
    stream-finished event is dispatched once at every completion, the
    first one and the later ones alike: after [n] completions it has
    been dispatched [n] more times.  For any other id it is never
    dispatched. *)
Theorem refresh_signal_at_every_completion (chat : ChatType)
    (hasOnMessageStreamFinish : bool) (times : list Z) (e : Engine) :
  finishedSignals (completions chat hasOnMessageStreamFinish times e)
  = (finishedSignals e
     + if isNewSession chat then length times else 0)%nat.
Proof. apply finishedSignals_completions. Qed.

(** C9 as stated fails: with the id 20240101_120000 the second
    completion dispatches the event again. *)
Lemma second_completion_signals_again :
  isNewSession (sampleChat []) = true
  /\ finishedSignals
       (completions (sampleChat []) false [10] (mount (sampleChat []) 0))
     = 1%nat
  /\ finishedSignals
       (completions (sampleChat []) false [10; 20] (mount (sampleChat []) 0))
     = 2%nat
  /\ finishedSignals
       (completions (sampleChat []) false [10; 20] (mount (sampleChat []) 0))
     <> 1%nat.
Proof.
  split; [reflexivity|].
  rewrite !finishedSignals_completions.
  repeat (split; [reflexivity|]). discriminate.
Qed.

(** * Further properties of the hook *)

(** ** Trimming *)

Lemma trimStart_fixed (s : jsstring) :
  trimStart s = s
  <-> match s with [] => True | c :: _ => isWhiteSpace c = false end.
Proof.
  destruct s as [|c s]; simpl; [tauto|].
  destruct (isWhiteSpace c) eqn:Hc; split; try congruence; intros H.
  destruct (trimStart_suffix s) as (spaces & Hs & _).
  apply (f_equal (@length code_unit)) in H, Hs.
  rewrite length_app in Hs. simpl in H. lia.
Qed.

Lemma trimStart_head (s : jsstring) :
  match trimStart s with [] => True | c :: _ => isWhiteSpace c = false end.
Proof.
  induction s as [|c s IH]; simpl; [exact I|].
  destruct (isWhiteSpace c) eqn:Hc; [exact IH | exact Hc].
Qed.

Lemma trimStart_idempotent (s : jsstring) :
  trimStart (trimStart s) = trimStart s.
Proof. apply trimStart_fixed, trimStart_head. Qed.

(** A trimmed string starts with no white space. *)
Lemma trim_head (s : jsstring) : trimStart (trim s) = trim s.
Proof.
  unfold trim, trimEnd. apply trimStart_fixed.
  destruct (trimStart_suffix (rev (trimStart s))) as (spaces & Hs & _).
  apply (f_equal (@rev code_unit)) in Hs.
  rewrite rev_involutive, rev_app_distr in Hs.
  pose proof (trimStart_head s) as Hhead. rewrite Hs in Hhead.
  destruct (rev (trimStart (rev (trimStart s)))); [exact I | exact Hhead].
Qed.

Lemma trim_idempotent (s : jsstring) : trim (trim s) = trim s.
Proof.
  unfold trim at 1. rewrite trim_head. unfold trimEnd, trim at 1, trimEnd.
  rewrite rev_involutive, trimStart_idempotent. reflexivity.
Qed.

(** White space in front of a string does not survive [trim]. *)
Lemma trim_leading_space (c : code_unit) (s : jsstring) :
  isWhiteSpace c = true -> trim (c :: s) = trim s.
Proof. intros Hc. unfold trim. simpl. rewrite Hc. reflexivity. Qed.

(** ** Stopping, whatever the conversation *)

Lemma nil_or_snoc {A} (l : list A) :
  l = [] \/ exists earlier x, l = earlier ++ [x].
Proof. destruct l using rev_ind; eauto. Qed.

Lemma onStopGoose_nil (now later : Z) :
  onStopGoose now later []
  = [stop; setLastInteractionTime now; stopPowerSaveBlocker].
Proof. reflexivity. Qed.

(** X1. A stop touches the end of the message list only: the messages
    before the last one stay in place, and the list is left as it was,
    loses its last message, or gains one message that closes a
    non-empty list of requests.  With no message at all it stays
    empty. *)
Theorem stop_changes_only_the_end (now later : Z) (e : Engine) :
  take (length (messages e) - 1)
       (messages (run (onStopGoose now later (messages e)) e))
  = take (length (messages e) - 1) (messages e)
  /\ (messages (run (onStopGoose now later (messages e)) e) = messages e
      \/ messages (run (onStopGoose now later (messages e)) e)
         = removelast (messages e)
      \/ exists ids,
           ids <> []
           /\ messages (run (onStopGoose now later (messages e)) e)
              = messages e ++ [interruption later ids]).
Proof.
  destruct (nil_or_snoc (messages e)) as [Hm | (earlier & lastMessage & Hm)].
  - rewrite Hm, onStopGoose_nil. simpl. rewrite Hm. split; [|left]; reflexivity.
  - rewrite Hm, onStopGoose_last, length_app. simpl.
    replace (length earlier + 1 - 1)%nat with (length earlier) by lia.
    destruct (isUserMessage lastMessage
              && negb (existsb isToolResponse (content lastMessage))); simpl.
    + rewrite take_app_length. split; [|right; left].
      * rewrite firstn_all. reflexivity.
      * rewrite removelast_last. reflexivity.
    + destruct (isUserMessage lastMessage); simpl;
        [rewrite Hm; split; [|left]; reflexivity|].
      destruct (requestIds (content lastMessage)) as [|i ids] eqn:Hids; simpl.
      * rewrite Hm. split; [|left]; reflexivity.
      * split.
        -- rewrite !take_app_length. reflexivity.
        -- right. right. exists (i :: ids). split; [discriminate|].
           rewrite <- app_assoc. reflexivity.
Qed.


Lemma interruption_is_settled (later : Z) (i : jsstring) (ids : list jsstring) :
  isUserMessage (interruption later (i :: ids)) = true
  /\ existsb isToolResponse (content (interruption later (i :: ids))) = true.
Proof. split; reflexivity. Qed.

(** X3. Once a stop has closed the requests of the last message, a
    second stop changes neither the message list nor the input: the
    message it appended carries tool responses, which no recovery
    applies to. *)
Theorem second_stop_changes_nothing (now later now' later' : Z) (e : Engine)
    (earlier : list Message) (lastMessage : Message) :
  messages e = earlier ++ [lastMessage] ->
  isUserMessage lastMessage = false ->
  requestIds (content lastMessage) <> [] ->
  messages
    (run (onStopGoose now' later'
            (messages (run (onStopGoose now later (messages e)) e)))
         (run (onStopGoose now later (messages e)) e))
  = messages (run (onStopGoose now later (messages e)) e)
  /\ input
       (run (onStopGoose now' later'
               (messages (run (onStopGoose now later (messages e)) e)))
            (run (onStopGoose now later (messages e)) e))
     = input e.
Proof.
  intros Hm Hnot Hids.
  destruct (requestIds (content lastMessage)) as [|i ids] eqn:Hreq;
    [congruence|].
  assert (Hfirst : onStopGoose now later (messages e)
                   = [stop; setLastInteractionTime now; stopPowerSaveBlocker;
                      setMessages (earlier ++ [lastMessage]
                                   ++ [interruption later (i :: ids)])]).
  { rewrite Hm, onStopGoose_last, Hnot, Hreq. reflexivity. }
  rewrite Hfirst. cbn [run call app].
  set (e1 := withMessages _ _).
  assert (Hm1 : messages e1
                = (earlier ++ [lastMessage])
                  ++ [interruption later (i :: ids)]).
  { unfold e1. simpl. rewrite <- app_assoc. reflexivity. }
  rewrite Hm1, onStopGoose_last.
  destruct (interruption_is_settled later i ids) as [-> ->]. simpl.
  split; [rewrite <- app_assoc|]; reflexivity.
Qed.

Lemma second_stop_changes_nothing_sample :
  messages
    (run (onStopGoose 11 12
            (messages (run (onStopGoose 9 10 [askMessage; toolMessage])
                           (mount (sampleChat [askMessage; toolMessage]) 0))))
         (run (onStopGoose 9 10 [askMessage; toolMessage])
              (mount (sampleChat [askMessage; toolMessage]) 0)))
  = [askMessage; toolMessage; interruption 10 [lit "a"; lit "b"]]
  /\ input
       (run (onStopGoose 11 12
               (messages (run (onStopGoose 9 10 [askMessage; toolMessage])
                              (mount (sampleChat [askMessage; toolMessage])
                                     0))))
            (run (onStopGoose 9 10 [askMessage; toolMessage])
                 (mount (sampleChat [askMessage; toolMessage]) 0)))
     = [].
Proof.
  apply (second_stop_changes_nothing 9 10 11 12
           (mount (sampleChat [askMessage; toolMessage]) 0)
           [askMessage] toolMessage);
    [reflexivity | reflexivity | discriminate].
Defined.

(** ** Completion *)

(** X4. When a reply completes, the desktop notification is shown
    exactly when more than 60000 ms have passed since the last
    interaction; the completion releases the keep-awake handle and
    leaves the messages, the input, the time of the last interaction
    and the token counters alone. *)
Theorem completion_notifies_after_a_minute (chat : ChatType)
    (hasOnMessageStreamFinish : bool) (now : Z) (e : Engine) :
  (In (showNotification (lit "Goose finished the task.")
                        (lit "Click here to expand."))
      (onFinish chat hasOnMessageStreamFinish now (lastInteractionTime e))
   <-> 60000 < now - lastInteractionTime e)
  /\ powerSaveBlocker
       (run (onFinish chat hasOnMessageStreamFinish now
                      (lastInteractionTime e)) e) = false
  /\ messages
       (run (onFinish chat hasOnMessageStreamFinish now
                      (lastInteractionTime e)) e) = messages e
  /\ input
       (run (onFinish chat hasOnMessageStreamFinish now
                      (lastInteractionTime e)) e) = input e
  /\ lastInteractionTime
       (run (onFinish chat hasOnMessageStreamFinish now
                      (lastInteractionTime e)) e) = lastInteractionTime e
  /\ chatInputTokens
       (run (onFinish chat hasOnMessageStreamFinish now
                      (lastInteractionTime e)) e) = chatInputTokens e.
Proof.
  split.
  - unfold onFinish.
    destruct (Z.gtb_spec (now - lastInteractionTime e) 60000)
      as [Hlate | Hsoon],
      (isNewSession chat), hasOnMessageStreamFinish; simpl;
      intuition (try discriminate; try lia).
  - rewrite run_onFinish. repeat (split; [reflexivity|]). reflexivity.
Qed.

(** ** Appending *)

Section Appending.

Variable getText : Message -> jsstring.
Variable create : jsstring -> Message.
Variable chat : ChatType.
Variable enableLocalStorage : bool.

Lemma run_append_state (history : list Message) (message : Message)
    (e : Engine) :
  run (append getText create chat enableLocalStorage history (inl message)) e
  = withCollaborators Streaming (powerSaveBlocker e)
      (dispatched e
       ++ if (length history =? 0)%nat
             && (length (chat_messages chat) =? 0)%nat
          then [lit "session-created"] else [])
      (stored e
       ++ if enableLocalStorage && isUserMessage message
             && truthy (getText message)
          then [getText message] else [])
      (timers e)
      (withMessages (messages e ++ [message]) e).
Proof.
  unfold append, storeMessageInHistory.
  destruct (enableLocalStorage && isUserMessage message),
    (truthy (getText message)),
    ((length history =? 0)%nat && (length (chat_messages chat) =? 0)%nat);
    simpl; rewrite ?app_nil_r; reflexivity.
Qed.

Lemma signals_app (event : jsstring) (e : Engine) (events : list jsstring)
    (state : ChatState) (blocker : bool) (history : list jsstring)
    (pending : list (list Effect * Z)) (e' : Engine) :
  signals event
    (withCollaborators state blocker (dispatched e ++ events) history
                       pending e')
  = (signals event e
     + length (List.filter (fun ev => bool_decide (ev = event)) events))%nat.
Proof.
  unfold signals. simpl. rewrite List.filter_app, length_app. reflexivity.
Qed.

(** X5. The session-created event goes out with the first message of a
    conversation that starts empty, and only then: of two messages
    appended one after the other, the first dispatches it when both the
    message list and the messages of the chat are empty, the second
    never does. *)
Theorem session_created_once (e : Engine) (first second : Message) :
  signals (lit "session-created")
    (run (append getText create chat enableLocalStorage
            (messages
               (run (append getText create chat enableLocalStorage
                       (messages e) (inl first)) e))
            (inl second))
         (run (append getText create chat enableLocalStorage (messages e)
                 (inl first)) e))
  = (signals (lit "session-created") e
     + if (length (messages e) =? 0)%nat
          && (length (chat_messages chat) =? 0)%nat
       then 1 else 0)%nat.
Proof.
  rewrite (run_append_state (messages e) first e).
  set (e1 := withCollaborators _ _ _ _ _ _).
  rewrite (run_append_state (messages e1) second e1).
  assert (Hm1 : messages e1 = messages e ++ [first]) by reflexivity.
  rewrite Hm1, length_app. simpl.
  replace (length (messages e) + 1 =? 0)%nat with false
    by (symmetry; apply Nat.eqb_neq; lia).
  simpl. rewrite app_nil_r.
  change (dispatched e1)
    with (dispatched e
          ++ if (length (messages e) =? 0)%nat
                && (length (chat_messages chat) =? 0)%nat
             then [lit "session-created"] else []).
  rewrite signals_app.
  destruct ((length (messages e) =? 0)%nat
            && (length (chat_messages chat) =? 0)%nat); reflexivity.
Qed.

(** X6. What [append] keeps in the local message storage: the text of
    the message, once, when the storage is enabled, the message is a
    user message and its text is not empty; nothing otherwise.  In
    every case the message goes to the tail of the list and a stream
    session is open. *)
Theorem append_stores_user_text (e : Engine) (message : Message) :
  stored (run (append getText create chat enableLocalStorage (messages e)
                 (inl message)) e)
  = stored e
    ++ (if enableLocalStorage && isUserMessage message
           && truthy (getText message)
        then [getText message] else [])
  /\ messages (run (append getText create chat enableLocalStorage (messages e)
                      (inl message)) e)
     = messages e ++ [message]
  /\ chatState (run (append getText create chat enableLocalStorage
                       (messages e) (inl message)) e)
     = Streaming.
Proof.
  rewrite run_append_state. repeat (split; [reflexivity|]). reflexivity.
Qed.

End Appending.

(** ** Session tokens *)

(** X7. A session-details fetch that fails, a chat without an id and a
    stream without metadata leave the three session counters, and so
    the counts on display, as they were. *)
Theorem failed_fetch_keeps_counts (chat : ChatType) (e : Engine)
    (fetched : option SessionDetailsMetadata) :
  chatInputTokens (run (fetchSessionTokens chat None) e) = chatInputTokens e
  /\ chatInputTokens
       (run (fetchSessionTokens
               {| chat_id := []; chat_messages := chat_messages chat |}
               fetched) e)
     = chatInputTokens e
  /\ chatInputTokens (run (updateSessionTokens None) e) = chatInputTokens e.
Proof.
  split; [|split]; try reflexivity.
  unfold fetchSessionTokens. destruct (truthy (chat_id chat)); reflexivity.
Qed.

(** ** Submitting, further *)

Section SubmittingFurther.

Variable getText : Message -> jsstring.
Variable create : jsstring -> Message.
Variable chat : ChatType.
Variable hasOnMessageSent : bool.
Variable enableLocalStorage : bool.

(** X8. White space around the submitted text makes no difference:
    submitting a text and submitting the same text already trimmed
    make the same calls. *)
Theorem submit_ignores_surrounding_space (now : Z) (history : list Message)
    (typed : jsstring) (withSummaryReset : bool) :
  handleSubmit getText create chat hasOnMessageSent enableLocalStorage now
               history (trim typed) withSummaryReset
  = handleSubmit getText create chat hasOnMessageSent enableLocalStorage now
                 history typed withSummaryReset.
Proof. unfold handleSubmit. rewrite trim_idempotent. reflexivity. Qed.



End SubmittingFurther.


(** ** The command history *)

Lemma commandHistory_from (filtered : list Message)
    (history : list jsstring) :
  fold_left
    (fun (history : list jsstring) message =>
       if isUserMessage message then
         match List.find isText (content message) with
         | Some (text t) =>
             if truthy (trim t) then history ++ [trim t] else history
         | _ => history
         end
       else history)
    filtered history
  = history ++ flat_map historyEntry filtered.
Proof.
  revert history.
  induction filtered as [|message rest IH]; intros history; simpl.
  - rewrite app_nil_r. reflexivity.
  - rewrite IH, app_assoc. f_equal. f_equal. unfold historyEntry.
    destruct (isUserMessage message); simpl; [|rewrite app_nil_r; reflexivity].
    induction (content message) as [|c blocks IHb]; simpl;
      [rewrite app_nil_r; reflexivity|].
    destruct c; simpl; try exact IHb.
    destruct (truthy (trim t)); [|rewrite app_nil_r]; reflexivity.
Qed.

Lemma commandHistory_entries (filtered : list Message) :
  commandHistory filtered = rev (flat_map historyEntry filtered).
Proof. unfold commandHistory. rewrite commandHistory_from. reflexivity. Qed.

(** X10. The command history runs from the most recent input to the
    oldest: the history of a conversation continued by further
    messages is the history of those messages followed by the history
    of the conversation, and so the inputs of the live list come
    before those of the ancestors. *)
Theorem commandHistory_most_recent_first (older newer : list Message)
    (ancestors tail : list Message) :
  commandHistory (older ++ newer)
  = commandHistory newer ++ commandHistory older
  /\ commandHistory (filteredMessages ancestors tail)
     = commandHistory (filteredMessages [] tail)
       ++ commandHistory (filteredMessages ancestors []).
Proof.
  split.
  - rewrite !commandHistory_entries, flat_map_app, rev_app_distr.
    reflexivity.
  - unfold filteredMessages. rewrite app_nil_r. simpl.
    rewrite List.filter_app, !commandHistory_entries, flat_map_app,
      rev_app_distr.
    reflexivity.
Qed.

Lemma historyEntry_length (filtered : list Message) :
  (length (flat_map historyEntry filtered) <= length filtered)%nat.
Proof.
  induction filtered as [|message rest IH]; [reflexivity|].
  cbn [flat_map]. rewrite length_app. cbn [length].
  assert (length (historyEntry message) <= 1)%nat.
  { unfold historyEntry.
    destruct (isUserMessage message
              && truthy (trim (draftText (content message))));
      simpl; lia. }
  lia.
Qed.

(** X11. The command history holds exactly the trimmed, non-empty
    texts of the first text block of the user messages it is given:
    assistant messages, messages made of confirmation requests and
    blank inputs leave no entry, and no entry starts or ends with
    white space. *)
Theorem commandHistory_holds_user_inputs (filtered : list Message)
    (entry : jsstring) :
  (In entry (commandHistory filtered)
   <-> exists message,
         In message filtered
         /\ isUserMessage message = true
         /\ entry = trim (draftText (content message))
         /\ entry <> [])
  /\ (In entry (commandHistory filtered) -> trim entry = entry)
  /\ (length (commandHistory filtered) <= length filtered)%nat.
Proof.
  rewrite commandHistory_entries.
  assert (Hin : In entry (rev (flat_map historyEntry filtered))
                <-> exists message,
                      In message filtered
                      /\ isUserMessage message = true
                      /\ entry = trim (draftText (content message))
                      /\ entry <> []).
  { rewrite <- in_rev, in_flat_map. split.
    - intros (message & Hm & Hentry). exists message.
      unfold historyEntry in Hentry.
      destruct (isUserMessage message); simpl in Hentry; [|contradiction].
      destruct (trim (draftText (content message))) as [|c t] eqn:Ht;
        simpl in Hentry; [contradiction|].
      destruct Hentry as [<- | []]. repeat split; [assumption | discriminate].
    - intros (message & Hm & Huser & -> & Hne). exists message.
      split; [assumption|]. unfold historyEntry. rewrite Huser.
      destruct (trim (draftText (content message))); [congruence|].
      left. reflexivity. }
  split; [exact Hin|]. split.
  - intros H. apply Hin in H. destruct H as (message & _ & _ & -> & _).
    apply trim_idempotent.
  - rewrite length_rev. apply historyEntry_length.
Qed.

Lemma commandHistory_holds_user_inputs_sample :
  trim (lit "list the files") = lit "list the files".
Proof.
  apply (commandHistory_holds_user_inputs [askMessage; toolMessage]
           (lit "list the files")).
  left. reflexivity.
Defined.

(** ** Tool call notifications *)

Lemma toolCallNotifications_snoc (notifications : list NotificationEvent)
    (item : NotificationEvent) :
  toolCallNotifications (notifications ++ [item])
  = let map := toolCallNotifications notifications in
    let key := request_id item in
    let map' :=
      match map !! key with
      | Some _ => map
      | None => <[key := []]> map
      end in
    match map' !! key with
    | Some group => <[key := group ++ [item]]> map'
    | None => map'
    end.
Proof. unfold toolCallNotifications. rewrite fold_left_app. reflexivity. Qed.

Lemma toolCallNotifications_lookup (notifications : list NotificationEvent)
    (key : jsstring) :
  toolCallNotifications notifications !! key
  = match notificationsOf key notifications with
    | [] => None
    | group => Some group
    end.
Proof.
  induction notifications as [|item notifications IH] using rev_ind.
  - reflexivity.
  - rewrite toolCallNotifications_snoc. cbv zeta.
    unfold notificationsOf in *. rewrite List.filter_app. simpl.
    pose proof (IH) as IHkey.
    destruct (decide (request_id item = key)) as [Heq | Hne].
    + subst key. rewrite bool_decide_eq_true_2 by reflexivity.
      destruct (toolCallNotifications notifications !! request_id item)
        as [group|] eqn:Hlook.
      * rewrite Hlook, lookup_insert_eq.
        destruct (List.filter _ notifications); [discriminate|].
        injection IHkey as ->. reflexivity.
      * rewrite lookup_insert_eq, lookup_insert_eq.
        destruct (List.filter _ notifications); [reflexivity | discriminate].
    + rewrite bool_decide_eq_false_2 by exact Hne. rewrite app_nil_r.
      destruct (toolCallNotifications notifications !! request_id item)
        as [group|] eqn:Hlook.
      * rewrite Hlook, lookup_insert_ne by exact Hne. exact IH.
      * rewrite lookup_insert_eq, !lookup_insert_ne by exact Hne. exact IH.
Qed.

(** X12. The map of tool call notifications holds, under every request
    id that has notifications, all the notifications of that request
    and no other, in the order they arrived; an id without
    notifications is not a key of the map. *)
Theorem toolCallNotifications_groups (notifications : list NotificationEvent)
    (key : jsstring) :
  toolCallNotifications notifications !! key
  = match notificationsOf key notifications with
    | [] => None
    | group => Some group
    end.
Proof. apply toolCallNotifications_lookup. Qed.

(** * Properties of the chat component *)

(** ** Retrying the last message *)

Lemma lastUserMessage_found (messages : list Message) :
  match BaseChat.lastUserMessage messages with
  | Some m =>
      exists before after,
        messages = before ++ m :: after
        /\ role m = user
        /\ Forall (fun x => role x = assistant) after
  | None => Forall (fun x => role x = assistant) messages
  end.
Proof.
  induction messages as [|x rest IH]; simpl; [constructor|].
  destruct (BaseChat.lastUserMessage rest) as [m|].
  - destruct IH as (before & after & -> & Hrole & Hafter).
    exists (x :: before), after. repeat split; assumption.
  - destruct (role x) eqn:Hx.
    + exists [], rest. repeat split; assumption.
    + constructor; assumption.
Qed.

(** X13. "Retry Last Message" resends the last message of role user,
    whatever its content: every message after it is an assistant
    message, and a copy of it goes to the tail of the list and opens a
    stream session.  When no message has role user the click does
    nothing. *)
Theorem retry_resends_last_user_message (getText : Message -> jsstring)
    (create : jsstring -> Message) (chat : ChatType)
    (enableLocalStorage : bool) (e : Engine) :
  match BaseChat.lastUserMessage (messages e) with
  | Some m =>
      (exists before after,
         messages e = before ++ m :: after
         /\ role m = user
         /\ Forall (fun x => role x = assistant) after)
      /\ messages
           (run (BaseChat.retryLastMessage getText create chat
                   enableLocalStorage (messages e)) e)
         = messages e ++ [m]
      /\ chatState
           (run (BaseChat.retryLastMessage getText create chat
                   enableLocalStorage (messages e)) e)
         = Streaming
  | None =>
      Forall (fun x => role x = assistant) (messages e)
      /\ run (BaseChat.retryLastMessage getText create chat
                enableLocalStorage (messages e)) e
         = e
  end.
Proof.
  pose proof (lastUserMessage_found (messages e)) as Hfound.
  unfold BaseChat.retryLastMessage.
  destruct (BaseChat.lastUserMessage (messages e)) as [m|].
  - split; [exact Hfound|]. rewrite run_append_state.
    split; reflexivity.
  - split; [exact Hfound | reflexivity].
Qed.

(** ** The recipe effect *)

Lemma newTitle_given (recipeTitle : option jsstring) :
  BaseChat.given (BaseChat.newTitle recipeTitle)
  = BaseChat.given recipeTitle.
Proof.
  unfold BaseChat.newTitle.
  destruct (BaseChat.given recipeTitle) eqn:Hgiven; [exact Hgiven|].
  reflexivity.
Qed.

Lemma recipeChanged_title (recipeTitle : option jsstring)
    (s : BaseChat.RecipeState) :
  BaseChat.currentRecipeTitle (BaseChat.recipeChanged recipeTitle s)
  = BaseChat.newTitle recipeTitle.
Proof.
  unfold BaseChat.recipeChanged.
  destruct (bool_decide_reflect
              (BaseChat.newTitle recipeTitle = BaseChat.currentRecipeTitle s))
    as [Heq | Hne]; [symmetry; exact Heq|].
  repeat match goal with
         | |- context [if ?b then _ else _] => destruct b
         end; reflexivity.
Qed.

(** X14. The recipe effect follows the title of the recipe: afterwards
    the component remembers the new title, and running the effect
    again for the same recipe changes nothing.  The conversation is
    cleared (live messages and ancestors) exactly when one recipe is
    replaced by a different one; in every other case both lists are
    kept. *)
Theorem recipe_effect_settles (recipeTitle : option jsstring)
    (s : BaseChat.RecipeState) :
  BaseChat.currentRecipeTitle (BaseChat.recipeChanged recipeTitle s)
  = BaseChat.newTitle recipeTitle
  /\ BaseChat.recipeChanged recipeTitle
       (BaseChat.recipeChanged recipeTitle s)
     = BaseChat.recipeChanged recipeTitle s
  /\ (BaseChat.tail (BaseChat.recipeChanged recipeTitle s),
      BaseChat.ancestors (BaseChat.recipeChanged recipeTitle s))
     = if BaseChat.given (BaseChat.currentRecipeTitle s)
          && BaseChat.given recipeTitle
          && negb (bool_decide (BaseChat.newTitle recipeTitle
                                = BaseChat.currentRecipeTitle s))
       then ([], [])
       else (BaseChat.tail s, BaseChat.ancestors s).
Proof.
  split; [apply recipeChanged_title|]. split.
  - unfold BaseChat.recipeChanged at 1.
    rewrite recipeChanged_title.
    rewrite bool_decide_eq_true_2 by reflexivity. reflexivity.
  - unfold BaseChat.recipeChanged. rewrite newTitle_given.
    destruct (bool_decide
                (BaseChat.newTitle recipeTitle
                 = BaseChat.currentRecipeTitle s));
      [rewrite andb_false_r; reflexivity|].
    rewrite andb_true_r.
    destruct (BaseChat.given (BaseChat.currentRecipeTitle s)),
      (BaseChat.given recipeTitle); simpl; try reflexivity.
    destruct (length (BaseChat.tail s) =? 0)%nat; [reflexivity|].
    destruct (0 <? length (BaseChat.tail s))%nat; reflexivity.
Qed.

(** ** Submitting through the component *)

Section ComponentSubmit.

Variable getText : Message -> jsstring.
Variable create : jsstring -> Message.
Variable chat : ChatType.
Variable enableLocalStorage : bool.
Variable hasRecipeConfig : bool.
Variable hasOnMessageSubmit : bool.
Variable summarizedThread : list Message.

Lemma engineCalls_app (first second : list BaseChat.ChatEffect) :
  BaseChat.engineCalls (first ++ second)
  = BaseChat.engineCalls first ++ BaseChat.engineCalls second.
Proof. unfold BaseChat.engineCalls. apply omap_app. Qed.

Lemma engineCalls_engine (calls : list Effect) :
  BaseChat.engineCalls (List.map BaseChat.engine calls) = calls.
Proof.
  induction calls as [|c calls IH]; [reflexivity|].
  simpl. unfold BaseChat.engineCalls in *. simpl. rewrite IH. reflexivity.
Qed.

Lemma engine_not_submit (calls : list Effect) (message : jsstring) :
  ~ In (BaseChat.onMessageSubmit message) (List.map BaseChat.engine calls).
Proof. rewrite in_map_iff. intros (e & H & _). discriminate H. Qed.

Lemma engine_not_started (calls : list Effect) (started : bool) :
  ~ In (BaseChat.setHasStartedUsingRecipe started)
       (List.map BaseChat.engine calls).
Proof. rewrite in_map_iff. intros (e & H & _). discriminate H. Qed.

(** X15. The component hands the engine the text of the event, the
    empty string when the event carries none.  The submit callback of
    the Hub gets that text as typed, white space included, while the
    engine appends the trimmed one; for a blank text neither the
    callback nor the recipe flag is touched and nothing is appended. *)
Theorem component_submit (now : Z) (history : list Message)
    (detailValue : option jsstring) :
  BaseChat.engineCalls
    (BaseChat.handleSubmit getText create chat enableLocalStorage
       hasRecipeConfig hasOnMessageSubmit summarizedThread now history
       detailValue)
  = handleSubmit getText create chat true enableLocalStorage now history
      (BaseChat.combinedText detailValue)
      (0 <? length summarizedThread)%nat
  /\ (forall message,
        In (BaseChat.onMessageSubmit message)
           (BaseChat.handleSubmit getText create chat enableLocalStorage
              hasRecipeConfig hasOnMessageSubmit summarizedThread now
              history detailValue)
        <-> hasOnMessageSubmit = true
            /\ forallb isWhiteSpace (BaseChat.combinedText detailValue)
               = false
            /\ message = BaseChat.combinedText detailValue)
  /\ (forall started,
        In (BaseChat.setHasStartedUsingRecipe started)
           (BaseChat.handleSubmit getText create chat enableLocalStorage
              hasRecipeConfig hasOnMessageSubmit summarizedThread now
              history detailValue)
        <-> hasRecipeConfig = true
            /\ forallb isWhiteSpace (BaseChat.combinedText detailValue)
               = false
            /\ started = true)
  /\ flat_map appended
       (BaseChat.engineCalls
          (BaseChat.handleSubmit getText create chat enableLocalStorage
             hasRecipeConfig hasOnMessageSubmit summarizedThread now history
             detailValue))
     = if forallb isWhiteSpace (BaseChat.combinedText detailValue) then []
       else [create (trim (BaseChat.combinedText detailValue))].
Proof.
  assert (Hengine :
    BaseChat.engineCalls
      (BaseChat.handleSubmit getText create chat enableLocalStorage
         hasRecipeConfig hasOnMessageSubmit summarizedThread now history
         detailValue)
    = handleSubmit getText create chat true enableLocalStorage now history
        (BaseChat.combinedText detailValue)
        (0 <? length summarizedThread)%nat).
  { unfold BaseChat.handleSubmit. rewrite !engineCalls_app, engineCalls_engine.
    destruct (hasRecipeConfig
              && truthy (trim (BaseChat.combinedText detailValue))),
      (hasOnMessageSubmit
       && truthy (trim (BaseChat.combinedText detailValue))),
      (0 <? length summarizedThread)%nat;
      simpl; rewrite ?app_nil_r; reflexivity. }
  split; [exact Hengine|]. split; [|split].
  - intros message. unfold BaseChat.handleSubmit. rewrite truthy_trim.
    set (calls := handleSubmit _ _ _ _ _ _ _ _ _).
    pose proof (engine_not_submit calls message) as Hno.
    rewrite !in_app_iff.
    destruct hasRecipeConfig, hasOnMessageSubmit,
      (forallb isWhiteSpace (BaseChat.combinedText detailValue)),
      (0 <? length summarizedThread)%nat; simpl;
      intuition (try discriminate; try congruence; eauto).
  - intros started. unfold BaseChat.handleSubmit. rewrite truthy_trim.
    set (calls := handleSubmit _ _ _ _ _ _ _ _ _).
    pose proof (engine_not_started calls started) as Hno.
    rewrite !in_app_iff.
    destruct hasRecipeConfig, hasOnMessageSubmit,
      (forallb isWhiteSpace (BaseChat.combinedText detailValue)),
      (0 <? length summarizedThread)%nat; simpl;
      intuition (try discriminate; try congruence; eauto).
  - rewrite Hengine. unfold handleSubmit. rewrite truthy_trim.
    destruct (forallb isWhiteSpace (BaseChat.combinedText detailValue));
      simpl; [reflexivity|].
    destruct (0 <? length summarizedThread)%nat; simpl;
      [rewrite app_nil_r|];
      exact (appended_append getText create chat true enableLocalStorage
               history (create (trim (BaseChat.combinedText detailValue)))).
Qed.

End ComponentSubmit.

(** ** What the component shows *)

(** X16. The recipe splash has priority over the conversation: with a
    recipe that is accepted and not yet used, and the empty state not
    suppressed, the recipe activities are shown even when there are
    messages, and they are shown in no other case.  The popular topics
    of the splash branch are never shown, and the message list is
    shown only for a non-empty filtered view or a recipe in use. *)
Theorem splash_before_messages (hasRecipeConfig recipeAccepted
    hasStartedUsingRecipe suppressEmptyState showPopularTopics : bool)
    (filtered : list Message) :
  BaseChat.body hasRecipeConfig recipeAccepted hasStartedUsingRecipe
                suppressEmptyState showPopularTopics filtered
  <> BaseChat.popularTopicsWithTracking
  /\ (BaseChat.body hasRecipeConfig recipeAccepted hasStartedUsingRecipe
                    suppressEmptyState showPopularTopics filtered
      = BaseChat.recipeActivities
      <-> hasRecipeConfig && recipeAccepted && negb hasStartedUsingRecipe
          && negb suppressEmptyState = true)
  /\ (BaseChat.body hasRecipeConfig recipeAccepted hasStartedUsingRecipe
                    suppressEmptyState showPopularTopics filtered
      = BaseChat.messageList
      -> filtered <> []
         \/ hasRecipeConfig && recipeAccepted && hasStartedUsingRecipe
            = true).
Proof.
  unfold BaseChat.body.
  destruct hasRecipeConfig, recipeAccepted, hasStartedUsingRecipe,
    suppressEmptyState, showPopularTopics, filtered; simpl;
    repeat split; try discriminate; auto; intros; discriminate.
Qed.

Lemma splash_before_messages_sample :
  [askMessage] <> [] \/ true && true && false = true.
Proof.
  apply (splash_before_messages true true false true false [askMessage]).
  reflexivity.
Defined.

(** X17. After a stop that takes back an unsent message, the chat
    input is prefilled with the text of that message; when the text is
    empty it is prefilled with the initial prompt if the conversation
    has become empty, and left empty otherwise. *)
Theorem stopped_draft_prefills_input (now later : Z) (e : Engine)
    (earlier : list Message) (lastMessage : Message)
    (initialPrompt : jsstring) :
  messages e = earlier ++ [lastMessage] ->
  isUserMessage lastMessage = true ->
  existsb isToolResponse (content lastMessage) = false ->
  BaseChat.initialValue
    (input (run (onStopGoose now later (messages e)) e))
    (messages (run (onStopGoose now later (messages e)) e))
    initialPrompt
  = match draftText (content lastMessage), earlier with
    | c :: t, _ => c :: t
    | [], [] => initialPrompt
    | [], _ :: _ => []
    end.
Proof.
  intros Hm Huser Hresp. rewrite Hm, onStopGoose_last, Huser, Hresp.
  simpl. unfold BaseChat.initialValue.
  destruct (draftText (content lastMessage)); [|reflexivity].
  destruct earlier; reflexivity.
Qed.

Lemma stopped_draft_prefills_input_sample :
  BaseChat.initialValue
    (input (run (onStopGoose 9 10 [toolMessage; askMessage])
                (mount (sampleChat [toolMessage; askMessage]) 0)))
    (messages (run (onStopGoose 9 10 [toolMessage; askMessage])
                   (mount (sampleChat [toolMessage; askMessage]) 0)))
    (lit "hello")
  = lit "list the files".
Proof.
  apply (stopped_draft_prefills_input 9 10
           (mount (sampleChat [toolMessage; askMessage]) 0)
           [toolMessage] askMessage (lit "hello")); reflexivity.
Defined.

(** * Properties of the system prompt settings *)

(** ** Tags *)

Lemma split_cons (separator : code_unit) (s : jsstring) :
  exists piece pieces, SystemPrompts.split separator s = piece :: pieces.
Proof.
  induction s as [|c s (piece & pieces & IH)]; simpl; [eauto|].
  destruct (c =? separator)%N; [eauto|]. rewrite IH. eauto.
Qed.

Lemma split_pieces (separator : code_unit) (s : jsstring) :
  Forall (fun piece => ~ In separator piece)
         (SystemPrompts.split separator s).
Proof.
  induction s as [|c s IH]; simpl; [repeat constructor; auto|].
  destruct (N.eqb_spec c separator) as [-> | Hne].
  - constructor; [auto | exact IH].
  - destruct (SystemPrompts.split separator s) as [|piece pieces];
      [repeat constructor; simpl; intuition congruence|].
    inversion IH as [|? ? Hpiece Hpieces]; subst.
    constructor; [|exact Hpieces]. simpl. intuition congruence.
Qed.

Lemma split_without_separator (separator : code_unit) (s : jsstring) :
  ~ In separator s -> SystemPrompts.split separator s = [s].
Proof.
  induction s as [|c s IH]; simpl; intros Hno; [reflexivity|].
  destruct (N.eqb_spec c separator) as [-> | Hne]; [tauto|].
  rewrite IH by tauto. reflexivity.
Qed.

Lemma split_at_separator (separator : code_unit) (s rest : jsstring) :
  ~ In separator s ->
  SystemPrompts.split separator (s ++ separator :: rest)
  = s :: SystemPrompts.split separator rest.
Proof.
  induction s as [|c s IH]; simpl; intros Hno.
  - rewrite N.eqb_refl. reflexivity.
  - destruct (N.eqb_spec c separator) as [-> | Hne]; [tauto|].
    rewrite IH by tauto. reflexivity.
Qed.

Lemma in_trimStart (c : code_unit) (s : jsstring) :
  In c (trimStart s) -> In c s.
Proof.
  induction s as [|x s IH]; simpl; [tauto|].
  destruct (isWhiteSpace x); simpl; tauto.
Qed.

Lemma in_trim (c : code_unit) (s : jsstring) : In c (trim s) -> In c s.
Proof.
  unfold trim, trimEnd. rewrite <- in_rev. intros H.
  apply in_trimStart in H. rewrite <- in_rev in H.
  apply in_trimStart. exact H.
Qed.

(** X18. The tags read from the form are clean: no tag is empty, none
    starts or ends with white space, none holds a comma; and the tags
    field of the request is left out rather than sent as an empty
    list. *)
Theorem parsed_tags_are_clean (tags : jsstring) :
  Forall (fun tag => tag <> [] /\ trim tag = tag /\ ~ In 44%N tag)
         (SystemPrompts.parseTags tags)
  /\ SystemPrompts.tagsField tags <> Some [].
Proof.
  split.
  - unfold SystemPrompts.parseTags.
    pose proof (split_pieces 44%N tags) as Hpieces.
    induction (SystemPrompts.split 44%N tags) as [|piece pieces IH];
      simpl; [constructor|].
    inversion Hpieces as [|? ? Hpiece Hrest]; subst.
    destruct (trim piece) as [|c t] eqn:Ht; simpl; [exact (IH Hrest)|].
    constructor; [|exact (IH Hrest)].
    split; [discriminate|]. split.
    + rewrite <- Ht. apply trim_idempotent.
    + intros Hin. apply Hpiece, in_trim. rewrite Ht. exact Hin.
  - unfold SystemPrompts.tagsField.
    destruct (SystemPrompts.parseTags tags); simpl; discriminate.
Qed.

Lemma parseTags_space (s : jsstring) :
  SystemPrompts.parseTags (32%N :: s) = SystemPrompts.parseTags s.
Proof.
  unfold SystemPrompts.parseTags. simpl.
  destruct (split_cons 44%N s) as (piece & pieces & ->). simpl.
  rewrite (trim_leading_space 32%N piece) by reflexivity. reflexivity.
Qed.

Lemma parseTags_cons (tag s : jsstring) :
  tag <> [] -> trim tag = tag -> ~ In 44%N tag ->
  SystemPrompts.parseTags (tag ++ 44%N :: s)
  = tag :: SystemPrompts.parseTags s.
Proof.
  intros Hne Htrim Hcomma. unfold SystemPrompts.parseTags.
  rewrite split_at_separator by exact Hcomma.
  cbn [List.map List.filter]. rewrite Htrim.
  destruct tag; [congruence | reflexivity].
Qed.

Lemma parseTags_formTags (tags : list jsstring) :
  Forall (fun tag => tag <> [] /\ trim tag = tag /\ ~ In 44%N tag) tags ->
  SystemPrompts.parseTags (SystemPrompts.formTags tags) = tags.
Proof.
  unfold SystemPrompts.formTags.
  induction tags as [|tag rest IH]; intros Hclean; [reflexivity|].
  inversion Hclean as [|? ? (Hne & Htrim & Hcomma) Hrest]; subst.
  destruct rest as [|next rest].
  - simpl. unfold SystemPrompts.parseTags.
    rewrite split_without_separator by exact Hcomma. simpl. rewrite Htrim.
    destruct tag; [congruence | reflexivity].
  - change (SystemPrompts.join (lit ", ") (tag :: next :: rest))
      with (tag ++ 44%N
            :: 32%N :: SystemPrompts.join (lit ", ") (next :: rest)).
    rewrite parseTags_cons by assumption.
    rewrite parseTags_space, IH by exact Hrest. reflexivity.
Qed.

(** X19. Opening the edit form and saving it unchanged gives the tags
    back: for tags that are not empty, carry no white space at either
    end and hold no comma, reading the joined form field returns the
    same list, and the request carries it (no field at all for a
    prompt without tags). *)
Theorem tags_survive_the_edit_form (tags : list jsstring) :
  Forall (fun tag => tag <> [] /\ trim tag = tag /\ ~ In 44%N tag) tags ->
  SystemPrompts.parseTags (SystemPrompts.formTags tags) = tags
  /\ SystemPrompts.tagsField (SystemPrompts.formTags tags)
     = match tags with [] => None | _ => Some tags end.
Proof.
  intros Hclean. pose proof (parseTags_formTags tags Hclean) as Hround.
  split; [exact Hround|].
  unfold SystemPrompts.tagsField. rewrite Hround.
  destruct tags; reflexivity.
Qed.

Lemma tags_survive_the_edit_form_sample :
  SystemPrompts.parseTags
    (SystemPrompts.formTags [lit "code review"; lit "rust"])
  = [lit "code review"; lit "rust"]
  /\ SystemPrompts.tagsField
       (SystemPrompts.formTags [lit "code review"; lit "rust"])
     = Some [lit "code review"; lit "rust"].
Proof.
  apply (tags_survive_the_edit_form [lit "code review"; lit "rust"]).
  repeat constructor; try discriminate; try reflexivity;
    simpl; intuition discriminate.
Defined.

(** ** The selected prompt *)

(** X20. The selected prompt survives the local storage: an id that is
    neither empty nor the word "undefined" is read back as saved.  No
    selection, an empty id and the id "undefined" all read back as no
    selection. *)
Theorem selected_prompt_survives_storage (i : jsstring) :
  i <> [] ->
  i <> lit "undefined" ->
  SystemPrompts.loadSelected (SystemPrompts.saveSelected (Some i)) = Some i
  /\ SystemPrompts.loadSelected (SystemPrompts.saveSelected None) = None
  /\ SystemPrompts.loadSelected (SystemPrompts.saveSelected (Some [])) = None
  /\ SystemPrompts.loadSelected
       (SystemPrompts.saveSelected (Some (lit "undefined"))) = None.
Proof.
  intros Hne Hundefined. split; [|repeat split].
  destruct i as [|c i]; [congruence|]. simpl.
  rewrite bool_decide_eq_false_2 by exact Hundefined. reflexivity.
Qed.

Lemma selected_prompt_survives_storage_sample :
  SystemPrompts.loadSelected
    (SystemPrompts.saveSelected (Some (lit "code-reviewer")))
  = Some (lit "code-reviewer").
Proof.
  apply (selected_prompt_survives_storage (lit "code-reviewer"));
    discriminate.
Defined.

(** X21. The selector reports what it shows.  Whatever option the
    selector marks as selected for a given value, choosing that option
    reports the value back, except that an empty or missing value and
    the value "none" are reported as no selection.  The id of a listed
    prompt always has an option to mark. *)
Theorem selector_reports_selected_value (allowClear : bool)
    (prompts : list SystemPrompts.SystemPrompt) (selected : option jsstring)
    (marked : SystemPrompts.SelectOption) :
  SystemPrompts.selectedOption allowClear prompts selected = Some marked ->
  SystemPrompts.handleValueChange (Some marked)
  = match selected with
    | Some v =>
        if truthy v && negb (bool_decide (v = lit "none")) then Some v
        else None
    | None => None
    end
  /\ forall p,
       In p prompts ->
       SystemPrompts.prompt_id p <> [] ->
       SystemPrompts.selectedOption allowClear prompts
         (Some (SystemPrompts.prompt_id p)) <> None.
Proof.
  intros Hmarked. split.
  - unfold SystemPrompts.selectedOption in Hmarked.
    apply find_some in Hmarked. destruct Hmarked as [_ Hvalue].
    apply bool_decide_eq_true_1 in Hvalue.
    unfold SystemPrompts.handleValueChange. rewrite Hvalue.
    destruct selected as [[|c v]|]; simpl.
    + reflexivity.
    + destruct (decide (c :: v = lit "none")) as [Hclear | Hprompt].
      * rewrite !bool_decide_eq_true_2 by exact Hclear. reflexivity.
      * rewrite !bool_decide_eq_false_2 by exact Hprompt. reflexivity.
    + reflexivity.
  - intros p Hp Hid Hnone. unfold SystemPrompts.selectedOption in Hnone.
    destruct (SystemPrompts.prompt_id p) as [|c v] eqn:Hpid; [congruence|].
    simpl in Hnone.
    assert (Hin : In {| SystemPrompts.value := SystemPrompts.prompt_id p;
                        SystemPrompts.label := SystemPrompts.prompt_name p;
                        SystemPrompts.prompt := Some p |}
                     (SystemPrompts.options allowClear prompts)).
    { unfold SystemPrompts.options. apply in_or_app. right.
      apply in_map_iff. exists p. split; [reflexivity | exact Hp]. }
    pose proof (find_none _ _ Hnone _ Hin) as Hfalse.
    simpl in Hfalse. rewrite Hpid in Hfalse.
    rewrite bool_decide_eq_true_2 in Hfalse by reflexivity.
    discriminate Hfalse.
Qed.

Lemma selector_reports_selected_value_sample :
  SystemPrompts.handleValueChange
    (Some {| SystemPrompts.value := lit "p1";
             SystemPrompts.label := lit "Code Reviewer";
             SystemPrompts.prompt :=
               Some {| SystemPrompts.prompt_id := lit "p1";
                       SystemPrompts.prompt_name := lit "Code Reviewer" |} |})
  = Some (lit "p1").
Proof.
  apply (selector_reports_selected_value true
           [{| SystemPrompts.prompt_id := lit "p1";
               SystemPrompts.prompt_name := lit "Code Reviewer" |}]
           (Some (lit "p1"))).
  reflexivity.
Defined.

(** * Submitting and stopping together *)



(** X23. Of two reports of session tokens, the later one is shown: the
    counts of a session-details fetch replace those of the stream
    metadata received before it, and the other way round; the two are
    never added up. *)
Theorem later_token_report_wins (c : code_unit) (rest : jsstring)
    (history : list Message) (e : Engine)
    (total tokensIn tokensOut total' tokensIn' tokensOut' : option Z) :
  chatInputTokens
    (run (fetchSessionTokens
            {| chat_id := c :: rest; chat_messages := history |}
            (Some {| total_tokens := total';
                     accumulated_input_tokens := tokensIn';
                     accumulated_output_tokens := tokensOut' |}))
         (run (updateSessionTokens
                 (Some {| totalTokens := total;
                          accumulatedInputTokens := tokensIn;
                          accumulatedOutputTokens := tokensOut |})) e))
  = chatInputTokens
      (run (fetchSessionTokens
              {| chat_id := c :: rest; chat_messages := history |}
              (Some {| total_tokens := total';
                       accumulated_input_tokens := tokensIn';
                       accumulated_output_tokens := tokensOut' |})) e)
  /\ chatInputTokens
       (run (updateSessionTokens
               (Some {| totalTokens := total;
                        accumulatedInputTokens := tokensIn;
                        accumulatedOutputTokens := tokensOut |}))
            (run (fetchSessionTokens
                    {| chat_id := c :: rest; chat_messages := history |}
                    (Some {| total_tokens := total';
                             accumulated_input_tokens := tokensIn';
                             accumulated_output_tokens := tokensOut' |})) e))
     = chatInputTokens
         (run (updateSessionTokens
                 (Some {| totalTokens := total;
                          accumulatedInputTokens := tokensIn;
                          accumulatedOutputTokens := tokensOut |})) e).
Proof. split; reflexivity. Qed.
